(** * Thread workers and notification channels (Mod_ThreadWorkers.py)

    A shallow embedding of the channel / worker / communicator classes of
    [Mod_ThreadWorkers.py], and the properties of the notification
    framework proved over it.

    Conventions.
    - Python objects are values of [PyVal]; a raised object is a value of
      [PyException], which tells whether it is an instance of [Exception]
      (what [except Exception] catches) or of [BaseException] only; a call
      either returns or raises ([Outcome]).
    - A method is a state transformer that may raise ([M]): the state it
      leaves behind is kept when it raises, as attribute mutation is in
      Python.
    - Everything a run can be observed by is collected in [Env]: the
      subscriber-side world, the console, the history of [queue.put]
      calls and the history of callback invocations.
    - The polling thread of a worker is not interleaved with the producer:
      one call of [run_loop] is one drain of a quiescent queue. *)

From Stdlib Require Import ZArith List String Ascii Bool Lia.
From Stdlib Require Import DecimalString SpecFloat.
Import ListNotations.

Local Open Scope list_scope.
Local Open Scope string_scope.
Local Open Scope Z_scope.

Set Implicit Arguments.

(* ===================================================================== *)
(** ** Python values *)
(* ===================================================================== *)

Module Py.

(** The values that travel through the channels of this module: [None],
    [bool], [int], [str], and [dict] with string keys (the items handed to
    a worker and the result it reports). *)
#[warnings="-register-all"]
Inductive PyVal : Type :=
| PyNone
| PyBool (b : bool)
| PyInt (z : Z)
| PyStr (s : string)
| PyDict (entries : list (string * PyVal)).

(** The type objects a channel can be declared with. *)
Inductive PyType : Type := TObject | TInt | TBool | TStr | TDict | TNoneType.

(** [t.__name__] *)
Definition type_name (t : PyType) : string :=
  match t with
  | TObject => "object"
  | TInt => "int"
  | TBool => "bool"
  | TStr => "str"
  | TDict => "dict"
  | TNoneType => "NoneType"
  end.

(** [type(v)] *)
Definition type_of (v : PyVal) : PyType :=
  match v with
  | PyNone => TNoneType
  | PyBool _ => TBool
  | PyInt _ => TInt
  | PyStr _ => TStr
  | PyDict _ => TDict
  end.

(** [isinstance(v, t)]: every value is an [object], and [bool] is a
    subclass of [int]. *)
Definition isinstance (v : PyVal) (t : PyType) : bool :=
  match t, v with
  | TObject, _ => true
  | TInt, PyInt _ => true
  | TInt, PyBool _ => true
  | TBool, PyBool _ => true
  | TStr, PyStr _ => true
  | TDict, PyDict _ => true
  | TNoneType, PyNone => true
  | _, _ => false
  end.

(** [str(type(v))] *)
Definition str_of_type (t : PyType) : string :=
  "<class '" ++ type_name t ++ "'>".

(** [str(z)] for an [int]. *)
Definition str_of_int (z : Z) : string :=
  NilZero.string_of_int (Z.to_int z).

(** A raised object, an instance of [BaseException]: its class name, [str(ex)],
    and [isinstance(ex, Exception)].  [SystemExit], [KeyboardInterrupt] and
    [GeneratorExit] derive from [BaseException] only. *)
Record PyException : Type :=
  mkRaised { exc_class : string; exc_str : string; exc_is_exception : bool }.

(** An instance of [Exception] or of a class derived from it, as are all the
    built-in errors the code below raises. *)
Definition mkExc (class_name msg : string) : PyException :=
  mkRaised class_name msg true.

Inductive Outcome (A : Type) : Type :=
| Ret (a : A)
| Raise (ex : PyException).

Arguments Ret {A} a.
Arguments Raise {A} ex.

(** [len(xs)] *)
Definition len {A} (xs : list A) : Z := Z.of_nat (List.length xs).

(** [d[key]] on the entries of a dict. *)
Fixpoint dict_get (entries : list (string * PyVal)) (key : string) : option PyVal :=
  match entries with
  | [] => None
  | (k, v) :: rest => if String.eqb k key then Some v else dict_get rest key
  end.

(** [v[key]] for a string key: only a dict holding the key answers. *)
Definition getitem (v : PyVal) (key : string) : Outcome PyVal :=
  match v with
  | PyDict entries =>
      match dict_get entries key with
      | Some x => Ret x
      | None => Raise (mkExc "KeyError" ("'" ++ key ++ "'"))
      end
  | PyStr _ => Raise (mkExc "TypeError" "string indices must be integers")
  | _ => Raise (mkExc "TypeError"
                  ("'" ++ type_name (type_of v) ++ "' object is not subscriptable"))
  end.

Section Str.

(** [str(d)] for a dict is the interpreter's; it is left open. *)
Variable repr_dict : list (string * PyVal) -> string.

(** [str(v)], which is what ['%s' % v] inserts. *)
Definition str (v : PyVal) : string :=
  match v with
  | PyNone => "None"
  | PyBool true => "True"
  | PyBool false => "False"
  | PyInt z => str_of_int z
  | PyStr s => s
  | PyDict entries => repr_dict entries
  end.

End Str.

(** *** Floats: IEEE 754 binary64, on the executable specification of the
    Standard Library *)

Definition prec : Z := 53.
Definition emax : Z := 1024.

(** [float(z)] for an int that converts exactly, such as [100]. *)
Definition float_of_int (z : Z) : spec_float := binary_normalize prec emax z 0 false.

(** [a / b] on ints: the quotient correctly rounded to the nearest float,
    ties to even; [ZeroDivisionError] on a zero divisor and [OverflowError]
    when the quotient is too large for a float. *)
Definition int_truediv (a b : Z) : Outcome spec_float :=
  if b =? 0 then Raise (mkExc "ZeroDivisionError" "division by zero")
  else if a =? 0 then Ret (S754_zero (b <? 0))
  else
    let '(q, e, l) := SFdiv_core_binary prec emax (Z.abs a) 0 (Z.abs b) 0 in
    match binary_round_aux prec emax (xorb (a <? 0) (b <? 0)) q e l with
    | S754_infinity _ =>
        Raise (mkExc "OverflowError" "integer division result too large for a float")
    | x => Ret x
    end.

(** [x * n] for a float [x] and an int [n] that converts exactly. *)
Definition float_mul_int (x : spec_float) (n : Z) : spec_float :=
  SFmul prec emax x (float_of_int n).

(** The integer nearest to [m * 2^e], ties to even. *)
Definition round_half_even (m : positive) (e : Z) : Z :=
  match e with
  | Zneg p =>
      let d := Z.pow 2 (Zpos p) in
      let q := Z.div (Zpos m) d in
      let r := Z.modulo (Zpos m) d in
      match Z.compare (2 * r) d with
      | Lt => q
      | Gt => q + 1
      | Eq => if Z.even q then q else q + 1
      end
  | _ => Zpos m * Z.pow 2 e
  end.

(** [round(x)] for a float: an int, ties to even; it raises on an infinity
    and on a NaN. *)
Definition round (x : spec_float) : Outcome Z :=
  match x with
  | S754_zero _ => Ret 0
  | S754_finite s m e => Ret (if s then - round_half_even m e else round_half_even m e)
  | S754_infinity _ => Raise (mkExc "OverflowError" "cannot convert float infinity to integer")
  | S754_nan => Raise (mkExc "ValueError" "cannot convert float NaN to integer")
  end.

End Py.
Import Py.

(* ===================================================================== *)
(** ** Methods: state transformers that may raise *)
(* ===================================================================== *)

Definition M (S A : Type) : Type := S -> Outcome A * S.

Definition ret {S A} (a : A) : M S A := fun s => (Ret a, s).

Definition bind {S A B} (m : M S A) (k : A -> M S B) : M S B :=
  fun s =>
    match m s with
    | (Ret a, s') => k a s'
    | (Raise ex, s') => (Raise ex, s')
    end.

Definition raise {S A} (ex : PyException) : M S A := fun s => (Raise ex, s).

(** An expression that touches no state: its value or its exception. *)
Definition eval {S A} (o : Outcome A) : M S A := fun s => (o, s).

(** [try: body  except Exception as ex: handler(ex)]: the handler runs for an
    instance of [Exception]; any other raised object goes on to the caller. *)
Definition try_except {S A} (body : M S A) (handler : PyException -> M S A) : M S A :=
  fun s =>
    match body s with
    | (Ret a, s') => (Ret a, s')
    | (Raise ex, s') =>
        if exc_is_exception ex then handler ex s' else (Raise ex, s')
    end.

Definition gets {S A} (f : S -> A) : M S A := fun s => (Ret (f s), s).
Definition modify {S} (f : S -> S) : M S unit := fun s => (Ret tt, f s).

(** Run a method of a component on the part of the state that holds it. *)
Definition zoom {S T A} (get : S -> T) (set : T -> S -> S) (m : M T A) : M S A :=
  fun s => let '(r, t') := m (get s) in (r, set t' s).

Declare Scope py_scope.
Delimit Scope py_scope with py.
Notation "x <- m ;; k" := (bind m (fun x => k))
  (at level 61, m at next level, right associativity) : py_scope.
Notation "m ;; k" := (bind m (fun _ => k))
  (at level 61, right associativity) : py_scope.
Local Open Scope py_scope.

(** [for x in xs: body(x)] *)
Fixpoint for_each {S X} (xs : list X) (body : X -> M S unit) : M S unit :=
  match xs with
  | [] => ret tt
  | x :: rest => body x ;; for_each rest body
  end.

(* ===================================================================== *)
(** ** What a run is observed by *)
(* ===================================================================== *)

(** A value put on the queue of the channel called [ev_channel]. *)
Record Event : Type := mkEvent { ev_channel : string; ev_data : PyVal }.

(** A subscriber, by its [__name__], called with a value. *)
Record Call : Type := mkCall { call_name : string; call_arg : PyVal }.

Module Channel.
Section Channel.

(** The state of the subscriber side (what callbacks read and write). *)
Variable W : Type.

Record Env : Type := mkEnv {
  world : W;
  console : list string;      (* lines printed *)
  puts : list Event;          (* queue.put calls, oldest first *)
  calls : list Call           (* callback invocations, oldest first *)
}.

Definition set_world (w : W) (e : Env) : Env :=
  mkEnv w (console e) (puts e) (calls e).
Definition add_console (line : string) (e : Env) : Env :=
  mkEnv (world e) (console e ++ [line])%list (puts e) (calls e).
Definition add_put (ev : Event) (e : Env) : Env :=
  mkEnv (world e) (console e) (puts e ++ [ev])%list (calls e).
Definition add_call (c : Call) (e : Env) : Env :=
  mkEnv (world e) (console e) (puts e) (calls e ++ [c])%list.

(** A callable of one argument with a [__name__]. *)
Record Callback : Type := mkCallback {
  cb_name : string;
  cb_call : PyVal -> W -> Outcome unit * W
}.

(* ===================================================================== *)
(** ** class ThreadChannel *)
(* ===================================================================== *)

Record ThreadChannel : Type := mkThreadChannel {
  parent_name : string;
  name : string;
  queue : list PyVal;                 (* Queue(maxsize=0), head = oldest *)
  var_type : PyType;
  debug : bool;
  var_type_str : string;
  max_entries_per_loop : Z;
  callbacks : list Callback
}.

(** [ThreadChannel.__init__] *)
Definition ThreadChannel_init (parent_name name : string) (var_type : PyType)
  : ThreadChannel :=
  {| parent_name := parent_name;
     name := name;
     queue := [];
     var_type := var_type;
     debug := false;
     var_type_str := type_name var_type;
     max_entries_per_loop := 4;
     callbacks := [] |}.

Definition set_queue (q : list PyVal) (c : ThreadChannel) : ThreadChannel :=
  mkThreadChannel (parent_name c) (name c) q (var_type c) (debug c)
    (var_type_str c) (max_entries_per_loop c) (callbacks c).
Definition set_callbacks (cbs : list Callback) (c : ThreadChannel) : ThreadChannel :=
  mkThreadChannel (parent_name c) (name c) (queue c) (var_type c) (debug c)
    (var_type_str c) (max_entries_per_loop c) cbs.
Definition set_max_entries_per_loop (n : Z) (c : ThreadChannel) : ThreadChannel :=
  mkThreadChannel (parent_name c) (name c) (queue c) (var_type c) (debug c)
    (var_type_str c) n (callbacks c).

(** A channel together with the environment it runs in. *)
Record ChanSt : Type := mkChanSt { self : ThreadChannel; env : Env }.

Definition CM := M ChanSt.

Definition on_self (f : ThreadChannel -> ThreadChannel) : CM unit :=
  modify (fun s => mkChanSt (f (self s)) (env s)).
Definition on_env (f : Env -> Env) : CM unit :=
  modify (fun s => mkChanSt (self s) (f (env s))).

(** [print(line)] *)
Definition print (line : string) : CM unit := on_env (add_console line).

(** [ThreadChannel.log_msg] *)
Definition log_msg (message : string) : CM unit :=
  c <- gets self ;;
  if debug c then
    print ("ThreadChannel " ++ parent_name c ++ "." ++ name c ++ "<"
             ++ var_type_str c ++ "> : " ++ message)
  else ret tt.

(** [self.queue.put(data)] *)
Definition queue_put (data : PyVal) : CM unit :=
  c <- gets self ;;
  on_self (set_queue (queue c ++ [data])%list) ;;
  on_env (add_put (mkEvent (name c) data)).

(** [ThreadChannel.send] *)
Definition send (data : PyVal) : CM unit :=
  log_msg "sending a message" ;;
  try_except
    (c <- gets self ;;
     (if negb (isinstance data (var_type c)) then
        let error_msg := "send wrong type: " ++ str_of_type (type_of data) in
        log_msg error_msg ;;
        raise (mkExc "Exception" error_msg)
      else ret tt) ;;
     queue_put data)
    (fun ex => log_msg ("Error while sending: " ++ exc_str ex)).

(** [ThreadChannel.subscribe] *)
Definition subscribe (on_data : Callback) : CM unit :=
  log_msg ("adding a subscription for: " ++ cb_name on_data) ;;
  c <- gets self ;;
  on_self (set_callbacks (callbacks c ++ [on_data])%list).

(** [this_callback(this_data)]: the callee runs on the subscriber side. *)
Definition invoke (cb : Callback) (data : PyVal) : CM unit :=
  fun s =>
    let e := add_call (mkCall (cb_name cb) data) (env s) in
    let '(r, w') := cb_call cb data (world e) in
    (r, mkChanSt (self s) (set_world w' e)).

(** The [while not self.queue.empty()] loop of [run_loop].  [pending] is
    the content of the queue when the test is made; [self.queue.get()]
    takes its head.  Callbacks act on the subscriber side only, so the
    queue met by the next test is the remainder. *)
Fixpoint run_loop_while (pending : list PyVal) (num_processed : Z) : CM unit :=
  match pending with
  | [] => ret tt
  | this_data :: rest =>
      on_self (set_queue rest) ;;
      cbs <- gets (fun s => callbacks (self s)) ;;
      for_each cbs (fun this_callback =>
        log_msg ("calling: " ++ cb_name this_callback) ;;
        invoke this_callback this_data) ;;
      let num_processed := num_processed + 1 in
      max <- gets (fun s => max_entries_per_loop (self s)) ;;
      if num_processed >=? max then ret tt
      else run_loop_while rest num_processed
  end.

(** [ThreadChannel.run_loop] *)
Definition run_loop : CM unit :=
  try_except
    (pending <- gets (fun s => queue (self s)) ;;
     run_loop_while pending 0)
    (fun ex => log_msg ("Error in run_loop: " ++ exc_str ex)).

End Channel.
End Channel.

(* ===================================================================== *)
(** ** class ThreadWorkerChannels, class ThreadWorker *)
(* ===================================================================== *)

Module Worker.

(** [threading.Thread]: the part of its life cycle [start] depends on. *)
Inductive ThreadState : Type := ThreadInitial | ThreadStarted.

Section Worker.

Variable W : Type.

Local Abbreviation ThreadChannel := (Channel.ThreadChannel W).
Local Abbreviation Env := (Channel.Env W).

Record ThreadWorkerChannels : Type := mkThreadWorkerChannels {
  parent_name : string;
  progress : ThreadChannel;
  status : ThreadChannel;
  error : ThreadChannel;
  success : ThreadChannel;
  result : ThreadChannel
}.

(** [ThreadWorkerChannels.__init__] *)
Definition ThreadWorkerChannels_init (parent_name : string) : ThreadWorkerChannels :=
  {| parent_name := parent_name;
     progress := @Channel.ThreadChannel_init W parent_name "progress" TInt;
     status := @Channel.ThreadChannel_init W parent_name "status" TStr;
     error := @Channel.ThreadChannel_init W parent_name "error" TStr;
     success := @Channel.ThreadChannel_init W parent_name "success" TBool;
     result := @Channel.ThreadChannel_init W parent_name "result" TObject |}.

Record ThreadWorker : Type := mkThreadWorker {
  name : string;
  loop_delay : Z;                     (* milliseconds *)
  debug : bool;
  monitor_thread : ThreadState;
  channels : ThreadWorkerChannels
}.

(** [ThreadWorker.__init__] *)
Definition ThreadWorker_init (name : string) : ThreadWorker :=
  {| name := name;
     loop_delay := 100;
     debug := true;
     monitor_thread := ThreadInitial;
     channels := ThreadWorkerChannels_init name |}.

(** A worker together with the environment it runs in. *)
Record WorkerSt : Type := mkWorkerSt { self : ThreadWorker; env : Env }.

Definition WM := M WorkerSt.

Definition set_channels (cs : ThreadWorkerChannels) (w : ThreadWorker) : ThreadWorker :=
  mkThreadWorker (name w) (loop_delay w) (debug w) (monitor_thread w) cs.
Definition set_monitor_thread (t : ThreadState) (w : ThreadWorker) : ThreadWorker :=
  mkThreadWorker (name w) (loop_delay w) (debug w) t (channels w).

(** One of the five attributes of [self.channels]. *)
Inductive Attr : Type := progress_ | status_ | error_ | success_ | result_.

Definition attr_get (a : Attr) (cs : ThreadWorkerChannels) : ThreadChannel :=
  match a with
  | progress_ => progress cs
  | status_ => status cs
  | error_ => error cs
  | success_ => success cs
  | result_ => result cs
  end.

Definition attr_set (a : Attr) (c : ThreadChannel) (cs : ThreadWorkerChannels)
  : ThreadWorkerChannels :=
  match a with
  | progress_ =>
      mkThreadWorkerChannels (parent_name cs) c (status cs) (error cs) (success cs) (result cs)
  | status_ =>
      mkThreadWorkerChannels (parent_name cs) (progress cs) c (error cs) (success cs) (result cs)
  | error_ =>
      mkThreadWorkerChannels (parent_name cs) (progress cs) (status cs) c (success cs) (result cs)
  | success_ =>
      mkThreadWorkerChannels (parent_name cs) (progress cs) (status cs) (error cs) c (result cs)
  | result_ =>
      mkThreadWorkerChannels (parent_name cs) (progress cs) (status cs) (error cs) (success cs) c
  end.

(** [self.channels.<attr>.<method>(...)] *)
Definition on_channel {A} (a : Attr) (m : Channel.CM W A) : WM A :=
  zoom (fun s => Channel.mkChanSt (attr_get a (channels (self s))) (env s))
       (fun t s => mkWorkerSt
                     (set_channels (attr_set a (Channel.self t) (channels (self s))) (self s))
                     (Channel.env t))
       m.

(** [ThreadWorkerChannels.run_loop]: each channel's loop once. *)
Definition channels_run_loop : WM unit :=
  on_channel progress_ (@Channel.run_loop W) ;;
  on_channel status_ (@Channel.run_loop W) ;;
  on_channel error_ (@Channel.run_loop W) ;;
  on_channel success_ (@Channel.run_loop W) ;;
  on_channel result_ (@Channel.run_loop W).

(** [print(line)] *)
Definition print (line : string) : WM unit :=
  modify (fun s => mkWorkerSt (self s) (Channel.add_console line (env s))).

(** [time.sleep(ms / 1000)]: nothing observable changes. *)
Definition sleep (ms : Z) : WM unit := ret tt.

(** [ThreadWorker.log_msg] *)
Definition log_msg (message : string) : WM unit :=
  w <- gets self ;;
  if debug w then print ("ThreadWorker " ++ name w ++ " : " ++ message)
  else ret tt.

(** [ThreadWorker.run_loop] never returns; these are its first [n] rounds. *)
Fixpoint run_loop (n : nat) : WM unit :=
  match n with
  | O => ret tt
  | S n' =>
      channels_run_loop ;;
      delay <- gets (fun s => loop_delay (self s)) ;;
      sleep delay ;;
      run_loop n'
  end.

(** [ThreadWorker.report_progress] *)
Definition report_progress (progress : PyVal) : WM unit :=
  on_channel progress_ (Channel.send progress).

(** [ThreadWorker.report_status] *)
Definition report_status (message : PyVal) : WM unit :=
  on_channel status_ (Channel.send message).

(** [ThreadWorker.report_error] *)
Definition report_error (message : PyVal) : WM unit :=
  report_status (PyStr "Error") ;;
  on_channel error_ (Channel.send message) ;;
  on_channel success_ (Channel.send (PyBool false)).

(** [ThreadWorker.report_success] *)
Definition report_success : WM unit :=
  report_status (PyStr "Success") ;;
  on_channel success_ (Channel.send (PyBool true)).

(** [ThreadWorker.report_result] *)
Definition report_result (result : PyVal) : WM unit :=
  on_channel result_ (Channel.send result).

(** [self.monitor_thread.start()]: the polling thread runs beside the
    caller from here on; a thread can be started once. *)
Definition monitor_thread_start : WM unit :=
  w <- gets self ;;
  match monitor_thread w with
  | ThreadInitial => modify (fun s => mkWorkerSt (set_monitor_thread ThreadStarted (self s)) (env s))
  | ThreadStarted => raise (mkExc "RuntimeError" "threads can only be started once")
  end.

(** What the private [Thread._stop()] does when called on the polling
    thread belongs to the interpreter, not to this module. *)
Variable thread_stop : Outcome unit.

(** [ThreadWorker.cleanup] *)
Definition cleanup : WM unit :=
  log_msg "Cleaning up" ;;
  eval thread_stop.

(** The subclass's part of a worker: the abstract [thread_action]. *)
Class ThreadAction : Type := { thread_action : WM unit }.

(** [ThreadWorker.run] *)
Definition run `{ThreadAction} : WM unit :=
  log_msg "Starting" ;;
  report_status (PyStr "Starting") ;;
  monitor_thread_start ;;
  report_progress (PyInt 0) ;;
  try_except thread_action
    (fun ex => print ("Error while running threadworker: " ++ exc_str ex)) ;;
  sleep 200 ;;
  cleanup ;;
  log_msg "Complete".

(** [ThreadWorker.thread_action]: the body of the base class is [pass]. *)
Definition ThreadWorker_thread_action : ThreadAction := {| thread_action := ret tt |}.

End Worker.
End Worker.

(* ===================================================================== *)
(** ** class ThreadWorkerCommunicator *)
(* ===================================================================== *)

Module Communicator.

(** What the communicator does to the objects handed to it by the window:
    the widgets, the message function and the result function. *)
Inductive UICall : Type :=
| SetItem (widget key : string) (value : PyVal)   (* widget[key] = value *)
| UpdateIdletasks                                 (* window.update_idletasks() *)
| Message (text : string)                         (* message_function(text) *)
| Result (value : PyVal).                         (* result_function(value) *)

(** The subscriber side of a worker bound to a communicator: the calls
    made so far, oldest first. *)
Definition UI : Type := list UICall.

Definition ui_call (c : UICall) : M UI unit := modify (fun u => (u ++ [c])%list).

(** [if v:] *)
Definition truthy (v : PyVal) : bool :=
  match v with
  | PyNone => false
  | PyBool b => b
  | PyInt z => negb (z =? 0)
  | PyStr s => negb (String.eqb s "")
  | PyDict entries => match entries with [] => false | _ => true end
  end.

Section Communicator.

Variable repr_dict : list (string * PyVal) -> string.

(** The attributes the handlers read; [progressbar] and [statuslabel] are
    a widget or [None]. *)
Record ThreadWorkerCommunicator : Type := mkThreadWorkerCommunicator {
  name : string;
  progressbar : option string;
  statuslabel : option string;
  debug : bool
}.

(** [self.log_msg]: [__init__] binds it to the message function. *)
Definition log_msg (message : string) : M UI unit := ui_call (Message message).

(** [ThreadWorkerCommunicator.on_progress] *)
Definition on_progress (c : ThreadWorkerCommunicator) (progress : PyVal) : M UI unit :=
  match progressbar c with
  | Some bar =>
      ui_call (SetItem bar "value" progress) ;;
      ui_call UpdateIdletasks
  | None => ret tt
  end.

(** [ThreadWorkerCommunicator.on_status] *)
Definition on_status (c : ThreadWorkerCommunicator) (status : PyVal) : M UI unit :=
  log_msg ("ThreadWorker " ++ name c ++ " - Status: " ++ Py.str repr_dict status) ;;
  match statuslabel c with
  | Some label =>
      ui_call (SetItem label "text" status) ;;
      ui_call UpdateIdletasks
  | None => ret tt
  end.

(** [ThreadWorkerCommunicator.on_error] *)
Definition on_error (c : ThreadWorkerCommunicator) (error : PyVal) : M UI unit :=
  log_msg ("ThreadWorker " ++ name c ++ " - Error: " ++ Py.str repr_dict error).

(** [ThreadWorkerCommunicator.on_success] *)
Definition on_success (c : ThreadWorkerCommunicator) (value : PyVal) : M UI unit :=
  if truthy value then log_msg ("ThreadWorker " ++ name c ++ " - Success!")
  else log_msg ("ThreadWorker " ++ name c ++ " - Failed!").

(** [ThreadWorkerCommunicator.on_result] *)
Definition on_result (c : ThreadWorkerCommunicator) (result : PyVal) : M UI unit :=
  ui_call (Result result).

(** [ThreadWorkerCommunicator.setup], on the worker it is bound to.  The
    handler's [print_traceback()] comes from [Mod_Util] and only writes to
    the console.  [ThreadWorkerCommunicator.run] hands [worker.run] to the
    thread pool and returns; what the pool thread then does is
    [Worker.run]. *)
Definition setup (c : ThreadWorkerCommunicator) : Worker.WM UI unit :=
  try_except
    (zoom (fun s => Channel.world (Worker.env s))
          (fun u s => Worker.mkWorkerSt (Worker.self s) (Channel.set_world u (Worker.env s)))
          (log_msg "Setting up") ;;
     Worker.on_channel Worker.progress_
       (Channel.subscribe (Channel.mkCallback "on_progress" (on_progress c))) ;;
     Worker.on_channel Worker.status_
       (Channel.subscribe (Channel.mkCallback "on_status" (on_status c))) ;;
     Worker.on_channel Worker.error_
       (Channel.subscribe (Channel.mkCallback "on_error" (on_error c))) ;;
     Worker.on_channel Worker.success_
       (Channel.subscribe (Channel.mkCallback "on_success" (on_success c))) ;;
     Worker.on_channel Worker.result_
       (Channel.subscribe (Channel.mkCallback "on_result" (on_result c))))
    (fun ex =>
       Worker.print ("Error while setting up threadworkercommunicator: " ++ exc_str ex)).

End Communicator.
End Communicator.

(* ===================================================================== *)
(** ** class TicketCreator(ThreadWorker) *)
(* ===================================================================== *)

Module TicketCreator.
Section TicketCreator.

Variable W : Type.
Variable repr_dict : list (string * PyVal) -> string.

Local Abbreviation WM := (Worker.WM W).

(** [TicketCreator.__init__]: the base class is set up under the name
    ['TicketCreator']; [self.items] is the argument of [thread_action]
    below. *)
Definition TicketCreator_init (items : list PyVal) : Worker.ThreadWorker W :=
  @Worker.ThreadWorker_init W "TicketCreator".

(** [round(((count + 1) / num_selected) * 100)] *)
Definition percent (count num_selected : Z) : Outcome Z :=
  match Py.int_truediv (count + 1) num_selected with
  | Ret x => Py.round (Py.float_mul_int x 100)
  | Raise ex => Raise ex
  end.

(** The [for item in self.items] loop of [thread_action], with the locals
    it updates; it returns [num_created]. *)
Fixpoint for_items (items : list PyVal) (num_selected count num_created : Z) : WM Z :=
  match items with
  | [] => ret num_created
  | item :: rest =>
      contract_id <- eval (Py.getitem item "id") ;;
      progress <- eval (percent count num_selected) ;;
      Worker.report_status
        (PyStr ("Creating tickets for Contract ID: " ++ Py.str repr_dict contract_id)) ;;
      Worker.sleep 1000 ;;
      Worker.report_progress (PyInt progress) ;;
      for_items rest num_selected (count + 1) (num_created + 1)
  end.

(** [TicketCreator.thread_action] *)
Definition thread_action (items : list PyVal) : WM unit :=
  let num_selected := Py.len items in
  let num_created := 0 in
  let num_skipped := 0 in
  if num_selected =? 0 then
    Worker.report_status (PyStr "Creating 0 tickets, no contracts selected")
  else
    Worker.report_status
      (PyStr ("Creating tickets for " ++ Py.str_of_int num_selected ++ " selected contracts")) ;;
    Worker.report_progress (PyInt 5) ;;
    num_created <- for_items items num_selected 0 num_created ;;
    Worker.report_progress (PyInt 100) ;;
    Worker.report_status
      (PyStr ("Of " ++ Py.str_of_int num_selected ++ " selected contracts, "
                ++ Py.str_of_int num_created ++ " tickets were created, and "
                ++ Py.str_of_int num_skipped ++ " were skipped")) ;;
    Worker.report_result
      (PyDict [("created", PyInt num_created);
               ("selected", PyInt num_selected);
               ("skipped", PyInt num_skipped)]).

#[export] Instance TicketCreator_action (items : list PyVal) : Worker.ThreadAction W :=
  {| Worker.thread_action := thread_action items |}.

(** [TicketCreator(items).run()], from the environment it is started in. *)
Definition run (thread_stop : Outcome unit) (items : list PyVal) (e : Channel.Env W)
  : Outcome unit * Worker.WorkerSt W :=
  Worker.run thread_stop (H := TicketCreator_action items)
    (Worker.mkWorkerSt (TicketCreator_init items) e).

End TicketCreator.
End TicketCreator.

(* ===================================================================== *)
(** ** Vocabulary of the statements *)
(* ===================================================================== *)

Module Spec.

Section Channel.

Variable W : Type.

Local Abbreviation ThreadChannel := (Channel.ThreadChannel W).
Local Abbreviation Callback := (Channel.Callback W).
Local Abbreviation Env := (Channel.Env W).
Local Abbreviation ChanSt := (Channel.ChanSt W).

(** The environment after [c.log_msg(message)]. *)
Definition say (c : ThreadChannel) (message : string) (e : Env) : Env :=
  if Channel.debug c then
    Channel.add_console
      ("ThreadChannel " ++ Channel.parent_name c ++ "." ++ Channel.name c ++ "<"
         ++ Channel.var_type_str c ++ "> : " ++ message) e
  else e.

(** The environment after [c.send(data)]. *)
Definition send_env (c : ThreadChannel) (data : PyVal) (e : Env) : Env :=
  if isinstance data (Channel.var_type c) then
    Channel.add_put (mkEvent (Channel.name c) data) (say c "sending a message" e)
  else
    let error_msg := "send wrong type: " ++ str_of_type (type_of data) in
    say c ("Error while sending: " ++ error_msg)
      (say c error_msg (say c "sending a message" e)).

(** The channel after [c.send(data)]. *)
Definition send_chan (c : ThreadChannel) (data : PyVal) : ThreadChannel :=
  if isinstance data (Channel.var_type c) then
    Channel.set_queue (Channel.queue c ++ [data])%list c
  else c.

(** A subscriber that returns, whatever it is called with. *)
Definition returns (cb : Callback) : Prop :=
  forall (d : PyVal) (w : W), fst (Channel.cb_call cb d w) = Ret tt.

(** Every value to every subscriber, value by value, subscribers in
    registration order. *)
Definition deliveries (cbs : list Callback) (vs : list PyVal) : list Call :=
  flat_map (fun d => map (fun cb => mkCall (Channel.cb_name cb) d) cbs) vs.

(** The subscriber side after those calls. *)
Definition delivered (cbs : list Callback) (vs : list PyVal) (w : W) : W :=
  fold_left (fun w d => fold_left (fun w cb => snd (Channel.cb_call cb d w)) cbs w) vs w.

(** [for v in vs: c.send(v)] *)
Definition sends (vs : list PyVal) : Channel.CM W unit :=
  for_each vs (fun v => Channel.send v).

(** What one drain does after the values [vs] were sent on the channel
    [c], whose queue was empty: it returns, [min(N, max_count)] values
    have left the queue and have been delivered, oldest first, each to
    every subscriber. *)
Definition drain_delivers (c : ThreadChannel) (e : Env) (vs : list PyVal) : Prop :=
  let k := Nat.min (List.length vs) (Z.to_nat (Channel.max_entries_per_loop c)) in
  let '(_, s1) := sends vs (Channel.mkChanSt c e) in
  let '(r, s2) := Channel.run_loop s1 in
  r = Ret tt
  /\ Channel.queue (Channel.self s2) = skipn k vs
  /\ Channel.calls (Channel.env s2)
     = (Channel.calls e ++ deliveries (Channel.callbacks c) (firstn k vs))%list
  /\ Channel.world (Channel.env s2)
     = delivered (Channel.callbacks c) (firstn k vs) (Channel.world e).

(** How many values the loop takes when it starts with [n] processed. *)
Definition taken (c : ThreadChannel) (n : Z) (pending : list PyVal) : nat :=
  Nat.min (List.length pending) (Z.to_nat (Z.max 1 (Channel.max_entries_per_loop c - n))).

(** Only values of the declared type are queued or handed to a subscriber. *)
Definition typed (ty : PyType) (s : ChanSt) : Prop :=
  Channel.var_type (Channel.self s) = ty
  /\ Forall (fun v => isinstance v ty = true) (Channel.queue (Channel.self s))
  /\ Forall (fun cl => isinstance (call_arg cl) ty = true) (Channel.calls (Channel.env s)).

(** The operations of a channel, and a history of them. *)
Inductive Op : Type :=
| OpSend (data : PyVal)
| OpSubscribe (on_data : Callback)
| OpRunLoop.

Definition apply_op (op : Op) : Channel.CM W unit :=
  match op with
  | OpSend data => Channel.send data
  | OpSubscribe on_data => Channel.subscribe on_data
  | OpRunLoop => @Channel.run_loop W
  end.

Definition history (ops : list Op) : Channel.CM W unit := for_each ops apply_op.

End Channel.

Section Worker.

Import Worker.

Variable W : Type.

(** The name and the declared type [ThreadWorkerChannels.__init__] gives
    each channel. *)
Definition attr_name (a : Attr) : string :=
  match a with
  | progress_ => "progress"
  | status_ => "status"
  | error_ => "error"
  | success_ => "success"
  | result_ => "result"
  end.

Definition attr_type (a : Attr) : PyType :=
  match a with
  | progress_ => TInt
  | status_ => TStr
  | error_ => TStr
  | success_ => TBool
  | result_ => TObject
  end.

(** A worker whose channels are named and typed as at construction. *)
Definition wf (w : ThreadWorker W) : Prop :=
  forall a : Attr,
    Channel.name (attr_get a (channels w)) = attr_name a
    /\ Channel.var_type (attr_get a (channels w)) = attr_type a.

(** The state after [self.channels.<a>.send(data)]. *)
Definition emit (a : Attr) (data : PyVal) (s : WorkerSt W) : WorkerSt W :=
  let c := attr_get a (channels (self s)) in
  mkWorkerSt (set_channels (attr_set a (send_chan c data) (channels (self s))) (self s))
             (send_env c data (env s)).

(** The state after [self.log_msg(message)]. *)
Definition logged (message : string) (s : WorkerSt W) : WorkerSt W :=
  if debug (self s) then
    mkWorkerSt (self s)
      (Channel.add_console ("ThreadWorker " ++ name (self s) ++ " : " ++ message) (env s))
  else s.

(** The state in which [run] enters [thread_action]. *)
Definition started (s : WorkerSt W) : WorkerSt W :=
  let s1 := emit status_ (PyStr "Starting") (logged "Starting" s) in
  emit progress_ (PyInt 0)
    (mkWorkerSt (set_monitor_thread ThreadStarted (self s1)) (env s1)).

Definition ev (a : Attr) (data : PyVal) : Event := mkEvent (attr_name a) data.

(** The state after [print(line)]. *)
Definition printed (line : string) (s : WorkerSt W) : WorkerSt W :=
  mkWorkerSt (self s) (Channel.add_console line (env s)).

(** From a well-formed worker, [m] keeps the worker well formed and puts
    only events that satisfy [P], whether it returns or raises. *)
Definition emits_only (P : Event -> Prop) {A} (m : WM W A) : Prop :=
  forall s, wf (self s) ->
    wf (self (snd (m s)))
    /\ exists delta,
         Channel.puts (env (snd (m s))) = (Channel.puts (env s) ++ delta)%list
         /\ Forall P delta.

End Worker.

Section Ticket.

Import Worker.

Variable repr_dict : list (string * PyVal) -> string.

(** [round(((count + 1) / num_selected) * 100)] for [n] consecutive
    values of [count]. *)
Fixpoint percents (num_selected count : Z) (n : nat) : list (Outcome Z) :=
  match n with
  | O => []
  | S n' => TicketCreator.percent count num_selected :: percents num_selected (count + 1) n'
  end.




(** What the loop of the ticket task puts for an item with identifier
    [id] and progress [p]. *)
Definition item_events (idp : PyVal * Z) : list Event :=
  [ev status_ (PyStr ("Creating tickets for Contract ID: " ++ Py.str repr_dict (fst idp)));
   ev progress_ (PyInt (snd idp))].

(** The values put on the progress channel, oldest first. *)
Definition progress_values (evs : list Event) : list PyVal :=
  map ev_data (filter (fun e => String.eqb (ev_channel e) "progress") evs).

Definition has_id (item id : PyVal) : Prop := Py.getitem item "id" = Ret id.

(** The events of a run of the ticket task over [k] items with the
    identifiers [ids], when the progress computed for them is [ps]. *)
Definition ticket_events (k : Z) (ids : list PyVal) (ps : list Z) : list Event :=
  ([ev status_ (PyStr "Starting");
    ev progress_ (PyInt 0);
    ev status_ (PyStr ("Creating tickets for " ++ str_of_int k ++ " selected contracts"));
    ev progress_ (PyInt 5)]
   ++ flat_map item_events (combine ids ps)
   ++ [ev progress_ (PyInt 100);
       ev status_ (PyStr ("Of " ++ str_of_int k ++ " selected contracts, "
                            ++ str_of_int k ++ " tickets were created, and "
                            ++ str_of_int 0 ++ " were skipped"));
       ev result_ (PyDict [("created", PyInt k); ("selected", PyInt k);
                           ("skipped", PyInt 0)])])%list.

End Ticket.

(** *** Sample channels *)

Definition env0 : Channel.Env unit := Channel.mkEnv tt [] [] [].

Definition boom : Channel.Callback unit :=
  Channel.mkCallback "boom" (fun _ w => (Raise (mkExc "Exception" "boom"), w)).
Definition first : Channel.Callback unit :=
  Channel.mkCallback "first" (fun _ w => (Ret tt, w)).
Definition second : Channel.Callback unit :=
  Channel.mkCallback "second" (fun _ w => (Ret tt, w)).

(** A progress channel whose first subscriber raises. *)
Definition chan_raising : Channel.ThreadChannel unit :=
  Channel.set_callbacks [boom; second] (Channel.ThreadChannel_init unit "worker" "progress" TInt).

(** A progress channel whose bound per cycle was set to 0. *)
Definition chan_zero : Channel.ThreadChannel unit :=
  Channel.set_max_entries_per_loop 0
    (Channel.set_callbacks [first] (Channel.ThreadChannel_init unit "worker" "progress" TInt)).

(** A progress channel with two subscribers that return. *)
Definition chan_two : Channel.ThreadChannel unit :=
  Channel.set_callbacks [first; second] (Channel.ThreadChannel_init unit "worker" "progress" TInt).


(** *** Sample workers *)

(** A worker as constructed, in an environment where nothing happened. *)
Definition sample_worker : Worker.WorkerSt unit :=
  Worker.mkWorkerSt (Worker.ThreadWorker_init unit "TicketCreator") env0.

(** The same worker after two subscriptions to its progress channel. *)
Definition subscribed_worker : Worker.WorkerSt unit :=
  snd (Worker.on_channel Worker.progress_
         (Channel.subscribe first ;; Channel.subscribe second) sample_worker).

Definition sample_repr (entries : list (string * PyVal)) : string := "{...}".

(** The items [MainWindow.create_tickets] hands to the ticket task. *)
Definition sample_items : list PyVal :=
  [PyDict [("id", PyStr "42"); ("name", PyStr "Albert")];
   PyDict [("id", PyStr "12"); ("name", PyStr "Michael")];
   PyDict [("id", PyStr "07"); ("name", PyStr "Kinsley")]].


(** An item without an identifier. *)
Definition item_without_id : PyVal := PyDict [("name", PyStr "Albert")].

(** A communicator with a status label and no progress bar. *)
Definition sample_communicator : Communicator.ThreadWorkerCommunicator :=
  Communicator.mkThreadWorkerCommunicator
    "Create JIRA Tickets" None (Some "label_create_tickets_status") true.

End Spec.

(* ===================================================================== *)
(** ** class MainWindow: the log *)
(* ===================================================================== *)

Module MainWindow.
Section MainWindow.

(** [str(d)] for a dict, and [get_timestamp()] of [Mod_Util]: the answer to
    the n-th call. *)
Variable repr_dict : list (string * PyVal) -> string.
Variable get_timestamp : nat -> string.

(** An entry of [self.log]: [[timestamp, message]]. *)
Definition Entry : Type := (string * PyVal)%type.

(** The attributes [log_msg] and [clear_log] use: the log, the rows of the
    [table_log] tree view from top to bottom, the console, and the number
    of timestamps taken so far. *)
Record MainWindow : Type := mkMainWindow {
  log : list Entry;
  table_log : list Entry;
  console : list string;
  clock : nat
}.

Definition MW := M MainWindow.

(** [self.table_log.insert('', index=index, values=entry)]: the row becomes
    the child number [index], or the last one when there are fewer. *)
Definition table_insert (index : nat) (entry : Entry) (rows : list Entry) : list Entry :=
  (firstn index rows ++ entry :: skipn index rows)%list.

(** The [for index, entry in enumerate(log_reversed)] loop. *)
Fixpoint insert_rows (index : nat) (entries : list Entry) : MW unit :=
  match entries with
  | [] => ret tt
  | entry :: rest =>
      modify (fun w => mkMainWindow (log w) (table_insert index entry (table_log w))
                         (console w) (clock w)) ;;
      insert_rows (S index) rest
  end.

(** [MainWindow.log_msg] *)
Definition log_msg (message : PyVal) : MW unit :=
  timestamp <- (fun w => (Ret (get_timestamp (clock w)),
                          mkMainWindow (log w) (table_log w) (console w) (S (clock w)))) ;;
  modify (fun w => mkMainWindow (log w) (table_log w)
                     (console w ++ [(timestamp ++ " - " ++ Py.str repr_dict message)%string])%list
                     (clock w)) ;;
  modify (fun w => mkMainWindow (log w ++ [(timestamp, message)])%list (table_log w)
                     (console w) (clock w)) ;;
  log_reversed <- gets (fun w => rev (log w)) ;;
  modify (fun w => mkMainWindow (log w) [] (console w) (clock w)) ;;
  insert_rows 0 log_reversed.

(** [MainWindow.clear_log] *)
Definition clear_log : MW unit :=
  modify (fun w => mkMainWindow [] (table_log w) (console w) (clock w)) ;;
  log_msg (PyStr "Log cleared").

End MainWindow.
End MainWindow.

(* ===================================================================== *)
(** ** More vocabulary *)
(* ===================================================================== *)

Module More.
Import Worker.

Section Channel.
Variable W : Type.

(** A subscriber that raises nothing but instances of [Exception]: it
    returns, or it raises what [except Exception] catches. *)
Definition raises_exceptions_only (cb : Channel.Callback W) : Prop :=
  forall (d : PyVal) (w : W) (ex : PyException),
    fst (Channel.cb_call cb d w) = Raise ex -> exc_is_exception ex = true.

(** [ex] is raised by one of the subscribers [cbs], on some call. *)
Definition raised_by (cbs : list (Channel.Callback W)) (ex : PyException) : Prop :=
  exists cb d w, In cb cbs /\ fst (Channel.cb_call cb d w) = Raise ex.

End Channel.

Section Worker.
Variable W : Type.




(** [m] leaves the polling thread of the worker as it found it. *)
Definition keeps_thread {A} (m : WM W A) : Prop :=
  forall s, monitor_thread (self (snd (m s))) = monitor_thread (self s).

End Worker.

(** *** Sample values *)

(** The channel with a raising first subscriber, holding two values. *)
Definition chan_raising_queued : Channel.ThreadChannel unit :=
  Channel.set_queue [PyInt 1; PyInt 2] Spec.chan_raising.

(** [sys.exit()] in a subscriber: [SystemExit] is no [Exception]. *)
Definition system_exit : PyException := mkRaised "SystemExit" "" false.

Definition quit : Channel.Callback unit :=
  Channel.mkCallback "quit" (fun _ w => (Raise system_exit, w)).

(** A progress channel whose first subscriber exits, holding two values. *)
Definition chan_quitting_queued : Channel.ThreadChannel unit :=
  Channel.set_queue [PyInt 1; PyInt 2]
    (Channel.set_callbacks [quit; Spec.second]
       (Channel.ThreadChannel_init unit "worker" "progress" TInt)).

(** A worker whose progress channel has a subscriber that raises an
    [Exception], after a progress report. *)
Definition worker_with_raising_subscriber : Worker.WorkerSt unit :=
  snd ((Worker.on_channel Worker.progress_ (Channel.subscribe Spec.boom) ;;
        Worker.report_progress (PyInt 7)) Spec.sample_worker).

(** The channel with two subscribers that return, holding five values. *)
Definition chan_two_queued : Channel.ThreadChannel unit :=
  Channel.set_queue [PyInt 1; PyInt 2; PyInt 3; PyInt 4; PyInt 5] Spec.chan_two.

(** The subscribed worker after a progress report and an error report. *)
Definition reporting_worker : Worker.WorkerSt unit :=
  snd ((Worker.report_progress (PyInt 7) ;; Worker.report_error (PyStr "no network"))
         Spec.subscribed_worker).

(** A communicator with a progress bar and a status label. *)
Definition full_communicator : Communicator.ThreadWorkerCommunicator :=
  Communicator.mkThreadWorkerCommunicator
    "Create JIRA Tickets" (Some "progressbar_create_tickets")
    (Some "label_create_tickets_status") true.

End More.

(* ===================================================================== *)
(** ** Facts about binary64 rounding *)
(* ===================================================================== *)

Module FloatFacts.
Lemma digits2_pos_size p : digits2_pos p = Pos.size p.
Proof. induction p; simpl; now rewrite ?IHp. Qed.

Lemma Zdigits2_log2 m : 0 < m -> Zdigits2 m = Z.log2 m + 1.
Proof.
  destruct m as [|p|p]; try lia. intros _. simpl. rewrite digits2_pos_size.
  destruct p; simpl; lia.
Qed.

Lemma Zdigits2_nonneg m : 0 <= Zdigits2 m.
Proof. destruct m; simpl; lia. Qed.

Lemma Zdigits2_le a b : 0 <= a <= b -> Zdigits2 a <= Zdigits2 b.
Proof.
  intros [Ha Hab]. destruct (Z.eq_dec a 0) as [->|Hn].
  - apply Zdigits2_nonneg.
  - rewrite !Zdigits2_log2 by lia. pose proof (Z.log2_le_mono a b Hab). lia.
Qed.

Lemma Zdigits2_succ m : 0 <= m -> Zdigits2 (m + 1) <= Zdigits2 m + 1.
Proof.
  intros Hm. destruct (Z.eq_dec m 0) as [->|Hn].
  - simpl. lia.
  - rewrite !Zdigits2_log2 by lia. pose proof (Z.log2_succ_le m) as H.
    unfold Z.succ in H. lia.
Qed.

Lemma Zdigits2_div_pow2 a n :
  0 <= a -> 0 <= n -> Zdigits2 (a / 2 ^ n) <= Z.max 0 (Zdigits2 a - n).
Proof.
  intros Ha Hn. destruct (Z.eq_dec a 0) as [->|Hna].
  - rewrite Z.div_0_l by (apply Z.pow_nonzero; lia). simpl. lia.
  - assert (H0 : 0 <= a / 2 ^ n) by (apply Z.div_pos; [lia | apply Z.pow_pos_nonneg; lia]).
    destruct (Z.eq_dec (a / 2 ^ n) 0) as [->|Hq]; [simpl; lia|].
    rewrite !Zdigits2_log2 by lia.
    rewrite <- Z.shiftr_div_pow2 in * by lia.
    rewrite Z.log2_shiftr by lia.
    assert (n <= Z.log2 a).
    { destruct (Z_le_gt_dec n (Z.log2 a)); [assumption|].
      exfalso. apply Hq. apply Z.shiftr_eq_0; lia. }
    lia.
Qed.

Lemma Zdigits2_mul a b : 0 < a -> 0 < b -> Zdigits2 (a * b) <= Zdigits2 a + Zdigits2 b.
Proof.
  intros Ha Hb. rewrite !Zdigits2_log2 by nia.
  pose proof (Z.log2_mul_above a b ltac:(lia) ltac:(lia)). lia.
Qed.

Lemma Zdigits2_shiftl a n : 0 < a -> 0 <= n -> Zdigits2 (Z.shiftl a n) = Zdigits2 a + n.
Proof.
  intros Ha Hn.
  assert (0 < Z.shiftl a n).
  { rewrite Z.shiftl_mul_pow2 by lia. apply Z.mul_pos_pos; [lia | apply Z.pow_pos_nonneg; lia]. }
  rewrite !Zdigits2_log2 by lia. rewrite Z.log2_shiftl by lia. lia.
Qed.

Lemma Zdigits2_quot a b :
  0 < a -> 0 < b -> Zdigits2 (a / b) <= Z.max 0 (Zdigits2 a - Zdigits2 b + 1).
Proof.
  intros Ha Hb.
  assert (Hpow : 0 < 2 ^ Z.log2 b) by (apply Z.pow_pos_nonneg; [lia | apply Z.log2_nonneg]).
  assert (Hle : 2 ^ Z.log2 b <= b) by (apply Z.log2_spec; lia).
  assert (Hq : a / b <= a / 2 ^ Z.log2 b) by (apply Z.div_le_compat_l; lia).
  assert (H0 : 0 <= a / b) by (apply Z.div_pos; lia).
  pose proof (@Zdigits2_le _ _ (conj H0 Hq)) as H1.
  pose proof (@Zdigits2_div_pow2 a (Z.log2 b) ltac:(lia) (Z.log2_nonneg b)) as H2.
  rewrite (@Zdigits2_log2 b Hb). lia.
Qed.

Lemma shr_1_m mrs : 0 <= shr_m mrs -> shr_m (shr_1 mrs) = shr_m mrs / 2.
Proof.
  destruct mrs as [m r s]. simpl. intros Hm.
  destruct m as [|p|p]; try lia; [reflexivity|].
  destruct p as [p|p|]; simpl shr_m.
  - rewrite Pos2Z.inj_xI. apply Z.div_unique with (r := 1); lia.
  - rewrite Pos2Z.inj_xO. apply Z.div_unique with (r := 0); lia.
  - reflexivity.
Qed.

Lemma iter_shr_1_m p : forall mrs,
  0 <= shr_m mrs -> shr_m (iter_pos shr_1 p mrs) = shr_m mrs / 2 ^ Zpos p.
Proof.
  assert (Hdiv : forall a b c, 0 <= a -> 0 < b -> 0 < c -> 0 <= a / b)
    by (intros; apply Z.div_pos; lia).
  induction p as [p IH|p IH|]; intros mrs Hm; simpl iter_pos.
  - assert (H1 : 0 <= shr_m (shr_1 mrs)) by (rewrite shr_1_m by lia; apply Z.div_pos; lia).
    assert (H2 : 0 <= shr_m (iter_pos shr_1 p (shr_1 mrs))).
    { rewrite IH by lia. apply Z.div_pos; [lia | apply Z.pow_pos_nonneg; lia]. }
    rewrite IH by lia. rewrite IH by lia. rewrite shr_1_m by lia.
    rewrite !Z.div_div by (try apply Z.pow_pos_nonneg; lia).
    f_equal. replace (Z.pos p~1) with (2 * Z.pos p + 1) by lia.
    rewrite Z.pow_add_r, Z.pow_twice_r by lia. change (2 ^ 1) with 2. ring.
  - assert (H2 : 0 <= shr_m (iter_pos shr_1 p mrs)).
    { rewrite IH by lia. apply Z.div_pos; [lia | apply Z.pow_pos_nonneg; lia]. }
    rewrite IH by lia. rewrite IH by lia.
    rewrite !Z.div_div by (try apply Z.pow_pos_nonneg; lia).
    f_equal. replace (Z.pos p~0) with (2 * Z.pos p) by lia.
    rewrite Z.pow_twice_r. ring.
  - rewrite shr_1_m by lia. reflexivity.
Qed.

Lemma shr_record_of_loc_m m l : shr_m (shr_record_of_loc m l) = m.
Proof. destruct l as [|[]]; reflexivity. Qed.

(** One alignment step: the mantissa stays nonnegative, and the exponent
    either stays or becomes the canonical one, with the digits dropped. *)
Lemma shr_fexp_bound m e l :
  0 <= m ->
  let '(mrs, e') := shr_fexp prec emax m e l in
  0 <= shr_m mrs
  /\ e' = Z.max e (fexp prec emax (Zdigits2 m + e))
  /\ Zdigits2 (shr_m mrs) + e' <= Z.max e' (Zdigits2 m + e).
Proof.
  intros Hm. unfold shr_fexp, shr.
  destruct (fexp prec emax (Zdigits2 m + e) - e) as [|p|p] eqn:Hd.
  - rewrite shr_record_of_loc_m. repeat split; lia.
  - assert (Hs : 0 <= shr_m (shr_record_of_loc m l)) by (rewrite shr_record_of_loc_m; lia).
    rewrite (iter_shr_1_m p _ Hs), shr_record_of_loc_m.
    repeat split.
    + apply Z.div_pos; [lia | apply Z.pow_pos_nonneg; lia].
    + lia.
    + pose proof (@Zdigits2_div_pow2 m (Z.pos p) Hm ltac:(lia)). lia.
  - rewrite shr_record_of_loc_m. repeat split; lia.
Qed.

Lemma round_nearest_even_bound m l :
  0 <= m -> m <= round_nearest_even m l <= m + 1.
Proof.
  intros Hm. destruct l as [|[]]; simpl; try lia. destruct (Z.even m); lia.
Qed.

(** Rounding a nonnegative mantissa whose magnitude is bounded gives a
    zero or a finite float, with the magnitude at most one binade up. *)
Lemma binary_round_aux_bound sx mx ex lx B :
  0 <= mx -> Zdigits2 mx + ex <= B -> ex <= 971 -> -1074 <= B <= 1023 ->
  match binary_round_aux prec emax sx mx ex lx with
  | S754_zero _ => True
  | S754_finite _ m e => Zdigits2 (Zpos m) + e <= B + 1
  | _ => False
  end.
Proof.
  intros Hmx HB Hex HBr. unfold binary_round_aux.
  pose proof (@shr_fexp_bound mx ex lx Hmx) as H1.
  destruct (shr_fexp prec emax mx ex lx) as [mrs' e'].
  destruct H1 as (H1m & H1e & H1d).
  pose proof (@round_nearest_even_bound (shr_m mrs') (loc_of_shr_record mrs') H1m) as Hr.
  set (m1 := round_nearest_even (shr_m mrs') (loc_of_shr_record mrs')) in *.
  assert (Hm1 : 0 <= m1) by lia.
  pose proof (@shr_fexp_bound m1 e' loc_Exact Hm1) as H2.
  destruct (shr_fexp prec emax m1 e' loc_Exact) as [mrs'' e''].
  destruct H2 as (H2m & H2e & H2d).
  assert (Hd1 : Zdigits2 m1 <= Zdigits2 (shr_m mrs') + 1).
  { pose proof (@Zdigits2_succ (shr_m mrs') H1m).
    pose proof (@Zdigits2_le m1 (shr_m mrs' + 1) ltac:(lia)). lia. }
  unfold fexp, emin, prec, emax in *.
  destruct (shr_m mrs'') as [|p|p] eqn:Hm2; [exact I | | lia].
  assert (1 <= Zdigits2 (Z.pos p)) by (simpl; lia).
  pose proof (Zdigits2_nonneg mx). pose proof (Zdigits2_nonneg (shr_m mrs')).
  destruct (Z.leb_spec e'' (1024 - 53)); lia.
Qed.

Lemma int_truediv_bound a b :
  0 < a <= b ->
  match int_truediv a b with
  | Ret (S754_zero _) => True
  | Ret (S754_finite _ m e) => Zdigits2 (Zpos m) + e <= 2
  | _ => False
  end.
Proof.
  intros Hab. unfold int_truediv.
  destruct (Z.eqb_spec b 0); [lia|]. destruct (Z.eqb_spec a 0); [lia|].
  rewrite !Z.abs_eq by lia.
  unfold SFdiv_core_binary.
  set (e' := Z.min (fexp prec emax (Zdigits2 a + 0 - (Zdigits2 b + 0))) (0 - 0)).
  set (m' := match 0 - 0 - e' with Z0 => a | Zpos _ => Z.shiftl a (0 - 0 - e') | Zneg _ => 0 end).
  assert (He' : e' <= 0) by (unfold e'; lia).
  assert (Hm' : 0 < m' /\ Zdigits2 m' = Zdigits2 a - e').
  { unfold m'. destruct (0 - 0 - e') as [|p|p] eqn:Hs; try lia.
    rewrite Zdigits2_shiftl by lia. split; [|lia].
    rewrite Z.shiftl_mul_pow2 by lia. apply Z.mul_pos_pos; [lia | apply Z.pow_pos_nonneg; lia]. }
  destruct Hm' as (Hm'pos & Hm'd).
  pose proof (Z_div_mod m' b ltac:(lia)) as Hdm.
  pose proof (@Zdigits2_quot m' b Hm'pos ltac:(lia)) as Hq.
  unfold Z.div in Hq.
  destruct (Z.div_eucl m' b) as [q r].
  pose proof (@Zdigits2_le a b ltac:(lia)) as Hle.
  assert (Hq0 : 0 <= q) by nia.
  pose proof (@binary_round_aux_bound (xorb (a <? 0) (b <? 0)) q e' (new_location b r) 1
                Hq0 ltac:(lia) ltac:(lia) ltac:(lia)) as Hb.
  destruct (binary_round_aux _ _ _ _ _ _); auto.
Qed.

Lemma percent_returns count num_selected :
  0 <= count < num_selected ->
  exists p, TicketCreator.percent count num_selected = Ret p.
Proof.
  intros Hc. unfold TicketCreator.percent.
  pose proof (@int_truediv_bound (count + 1) num_selected ltac:(lia)) as Hd.
  destruct (int_truediv (count + 1) num_selected) as [x|]; [|contradiction].
  destruct x as [s| | |s m e]; try contradiction.
  - eexists; reflexivity.
  - unfold float_mul_int.
    change (float_of_int 100) with (S754_finite false 7036874417766400 (-46)).
    unfold SFmul.
    pose proof (@Zdigits2_mul (Zpos m) 7036874417766400 ltac:(lia) ltac:(lia)) as Hm.
    change (Zdigits2 7036874417766400) with 53 in Hm.
    rewrite <- Pos2Z.inj_mul in Hm.
    assert (1 <= Zdigits2 (Z.pos m)) by (simpl; lia).
    pose proof (@binary_round_aux_bound (xorb s false) (Zpos (m * 7036874417766400))
                  (e + -46) loc_Exact 9 ltac:(lia) ltac:(lia) ltac:(lia) ltac:(lia)) as Hb.
    destruct (binary_round_aux _ _ _ _ _ _); try contradiction; eexists; reflexivity.
Qed.







End FloatFacts.

(* ===================================================================== *)
(** ** Facts about a channel *)
(* ===================================================================== *)

Module ChannelFacts.
Import Channel Spec.

Section Facts.

Variable W : Type.

Implicit Types (c : ThreadChannel W) (e : Env W) (s : ChanSt W).

Lemma say_calls c m e : calls (say c m e) = calls e.
Proof. unfold say; destruct (debug c); reflexivity. Qed.

Lemma say_world c m e : world (say c m e) = world e.
Proof. unfold say; destruct (debug c); reflexivity. Qed.

Lemma say_puts c m e : puts (say c m e) = puts e.
Proof. unfold say; destruct (debug c); reflexivity. Qed.

Lemma log_msg_run c e m :
  log_msg m (mkChanSt c e) = (Ret tt, mkChanSt c (say c m e)).
Proof. unfold log_msg, say, bind, gets; simpl; destruct (debug c); reflexivity. Qed.

Lemma set_queue_same c : set_queue (queue c) c = c.
Proof. destruct c; reflexivity. Qed.

(** [send] always returns; the channel and the environment it leaves. *)
Lemma send_run c e data :
  send data (mkChanSt c e) = (Ret tt, mkChanSt (send_chan c data) (send_env c data e)).
Proof.
  unfold send, send_chan, send_env, bind, try_except.
  rewrite log_msg_run; simpl.
  destruct (isinstance data (var_type c)); simpl.
  - reflexivity.
  - rewrite !log_msg_run. simpl. rewrite log_msg_run. reflexivity.
Qed.

Lemma send_env_calls c e data : calls (send_env c data e) = calls e.
Proof.
  unfold send_env; destruct (isinstance _ _); simpl; now rewrite ?say_calls.
Qed.

Lemma send_env_world c e data : world (send_env c data e) = world e.
Proof.
  unfold send_env; destruct (isinstance _ _); simpl; now rewrite ?say_world.
Qed.

Lemma send_env_puts c e data :
  puts (send_env c data e)
  = if isinstance data (var_type c)
    then (puts e ++ [mkEvent (name c) data])%list else puts e.
Proof.
  unfold send_env; destruct (isinstance _ _); simpl; now rewrite ?say_puts.
Qed.

Lemma sends_run vs : forall c e,
  Forall (fun v => isinstance v (var_type c) = true) vs ->
  match sends vs (mkChanSt c e) with
  | (r, s') =>
      r = Ret tt /\ self s' = set_queue (queue c ++ vs)%list c
      /\ calls (env s') = calls e /\ world (env s') = world e
  end.
Proof.
  induction vs as [|v vs IH]; intros c e Hty.
  - simpl. rewrite app_nil_r, set_queue_same. now repeat split.
  - inversion Hty as [|? ? Hv Hvs]; subst.
    unfold sends in *. simpl. unfold bind at 1. rewrite send_run.
    specialize (IH (send_chan c v) (send_env c v e)).
    unfold send_chan in *. rewrite Hv in *. simpl in IH.
    specialize (IH Hvs).
    destruct (for_each vs _ _) as [r s'].
    rewrite send_env_calls, send_env_world in IH. rewrite <- app_assoc in IH.
    exact IH.
Qed.

Lemma callbacks_run (d : PyVal) c cbs : forall e,
  Forall (@returns W) cbs ->
  match for_each cbs (fun this_callback =>
      log_msg ("calling: " ++ cb_name this_callback) ;; invoke this_callback d)
      (mkChanSt c e) with
  | (r, s') =>
      r = Ret tt /\ self s' = c
      /\ calls (env s') = (calls e ++ map (fun cb => mkCall (cb_name cb) d) cbs)%list
      /\ world (env s') = fold_left (fun w cb => snd (cb_call cb d w)) cbs (world e)
      /\ puts (env s') = puts e
  end.
Proof.
  induction cbs as [|cb cbs IH]; intros e Hret.
  - simpl. rewrite app_nil_r. now repeat split.
  - inversion Hret as [|? ? Hcb Hcbs]; subst.
    simpl. unfold bind at 1. unfold bind at 1. rewrite log_msg_run.
    unfold invoke. simpl. rewrite say_world.
    pose proof (Hcb d (world e)) as Hr.
    destruct (cb_call cb d (world e)) as [r w'] eqn:Hcall. simpl in Hr; subst r.
    match goal with |- context [for_each cbs _ (mkChanSt c ?e1)] => specialize (IH e1 Hcbs) end.
    destruct (for_each cbs _ _) as [r s'].
    simpl in IH. rewrite say_calls, say_puts in IH. rewrite <- app_assoc in IH. simpl in IH.
    exact IH.
Qed.

Lemma run_loop_while_run c : 
  Forall (@returns W) (callbacks c) ->
  forall pending n e,
  match run_loop_while pending n (mkChanSt (set_queue pending c) e) with
  | (r, s') =>
      let k := taken c n pending in
      r = Ret tt /\ self s' = set_queue (skipn k pending) c
      /\ calls (env s') = (calls e ++ deliveries (callbacks c) (firstn k pending))%list
      /\ world (env s') = delivered (callbacks c) (firstn k pending) (world e)
      /\ puts (env s') = puts e
  end.
Proof.
  intros Hret. induction pending as [|d rest IH]; intros n e.
  - simpl. rewrite app_nil_r. now repeat split.
  - simpl run_loop_while. unfold bind at 1. unfold on_self, modify. simpl.
    unfold bind at 1. unfold gets at 1. simpl.
    unfold bind at 1.
    pose proof (@callbacks_run d (set_queue rest c) (callbacks c) e Hret) as Hcb.
    destruct (for_each (callbacks c) _ _) as [r s1].
    destruct Hcb as (-> & Hs1 & Hc1 & Hw1 & Hp1).
    destruct s1 as [c1 e1]. simpl in *. subst c1.
    unfold bind at 1. unfold gets at 1. simpl.
    unfold taken. simpl List.length.
    destruct (n + 1 >=? max_entries_per_loop c) eqn:Hge.
    + replace (Nat.min _ _) with 1%nat by lia.
      simpl. rewrite app_nil_r. unfold ret. now repeat split.
    + specialize (IH (n + 1) e1).
      destruct (run_loop_while rest (n + 1) _) as [r s2].
      unfold taken in IH.
      replace (Nat.min (S _) _) with (S (Nat.min (List.length rest) (Z.to_nat (Z.max 1 (max_entries_per_loop c - (n + 1)))))) by lia.
      simpl. destruct IH as (-> & Hs2 & Hc2 & Hw2 & Hp2).
      rewrite Hs2, Hc2, Hw2, Hp2, Hc1, Hw1, Hp1. rewrite <- app_assoc. now repeat split.
Qed.

Lemma run_loop_empty c e :
  queue c = [] -> run_loop (mkChanSt c e) = (Ret tt, mkChanSt c e).
Proof.
  intros Hq. unfold run_loop, try_except, bind, gets. simpl. rewrite Hq. reflexivity.
Qed.

Lemma run_loop_run c e :
  Forall (@returns W) (callbacks c) ->
  match run_loop (mkChanSt c e) with
  | (r, s') =>
      let k := taken c 0 (queue c) in
      r = Ret tt /\ self s' = set_queue (skipn k (queue c)) c
      /\ calls (env s') = (calls e ++ deliveries (callbacks c) (firstn k (queue c)))%list
      /\ world (env s') = delivered (callbacks c) (firstn k (queue c)) (world e)
      /\ puts (env s') = puts e
  end.
Proof.
  intros Hret. unfold run_loop, try_except. unfold bind at 1. unfold gets at 1. simpl.
  pose proof (@run_loop_while_run c Hret (queue c) 0 e) as H.
  rewrite set_queue_same in H.
  destruct (run_loop_while (queue c) 0 _) as [r s']. 
  destruct H as (-> & H). split; [reflexivity|exact H].
Qed.

(** C1 (as amended): a drain of an empty queue does nothing; and when no
    subscriber raises and the bound per cycle is at least 1, one drain
    after N sends of well-typed values on a channel whose queue was empty
    removes exactly [min(N, max_entries_per_loop)] values and delivers
    them oldest first, each to every subscriber in registration order
    before the next value. *)
Theorem run_loop_delivers_min c e vs :
  (queue c = [] -> run_loop (mkChanSt c e) = (Ret tt, mkChanSt c e))
  /\ (queue c = [] ->
      Forall (@returns W) (callbacks c) ->
      1 <= max_entries_per_loop c ->
      Forall (fun v => isinstance v (var_type c) = true) vs ->
      drain_delivers c e vs).
Proof.
  split; [apply run_loop_empty|].
  intros Hq Hret Hmax Hty. unfold drain_delivers.
  pose proof (@sends_run vs c e Hty) as Hs.
  destruct (sends vs _) as [r1 [c1 e1]]. simpl in Hs.
  destruct Hs as (_ & -> & Hc1 & Hw1). rewrite Hq. simpl app.
  assert (Hret' : Forall (@returns W) (callbacks (set_queue vs c))) by exact Hret.
  pose proof (@run_loop_run (set_queue vs c) e1 Hret') as H.
  destruct (run_loop _) as [r2 s2]. simpl in H.
  unfold taken in H. simpl in H.
  replace (Nat.min (List.length vs) (Z.to_nat (Z.max 1 (max_entries_per_loop c - 0))))
    with (Nat.min (List.length vs) (Z.to_nat (max_entries_per_loop c))) in H by lia.
  destruct H as (-> & Hs2 & Hc2 & Hw2 & _).
  rewrite Hs2, Hc2, Hw2, Hc1, Hw1. now repeat split.
Qed.
Lemma typed_say ty c e m : typed ty (mkChanSt c e) -> typed ty (mkChanSt c (say c m e)).
Proof. unfold typed; simpl. now rewrite say_calls. Qed.

Lemma send_typed ty s data : typed ty s -> typed ty (snd (send data s)).
Proof.
  destruct s as [c e]. intros (Hty & Hq & Hc). rewrite send_run. simpl in *.
  unfold typed, send_chan. simpl. rewrite send_env_calls.
  destruct (isinstance data (var_type c)) eqn:Hi; simpl; repeat split; auto.
  apply Forall_app; split; auto. constructor; auto. now rewrite <- Hty.
Qed.

Lemma subscribe_typed ty s cb : typed ty s -> typed ty (snd (subscribe cb s)).
Proof.
  destruct s as [c e]. intros (Hty & Hq & Hc).
  unfold subscribe. unfold bind at 1. rewrite log_msg_run.
  unfold bind, gets, on_self, modify. simpl.
  unfold typed; simpl. now rewrite say_calls.
Qed.

Lemma callbacks_typed ty (d : PyVal) cbs : forall c e,
  isinstance d ty = true ->
  typed ty (mkChanSt c e) ->
  match for_each cbs (fun this_callback =>
      log_msg ("calling: " ++ cb_name this_callback) ;; invoke this_callback d)
      (mkChanSt c e) with
  | (r, s') => self s' = c /\ typed ty s'
  end.
Proof.
  induction cbs as [|cb cbs IH]; intros c e Hd Ht.
  - simpl. now split.
  - simpl. unfold bind at 1. unfold bind at 1. rewrite log_msg_run.
    unfold invoke. simpl.
    destruct (cb_call cb d _) as [r w'] eqn:Hcall.
    assert (Ht' : typed ty (mkChanSt c (set_world w'
              (add_call (mkCall (cb_name cb) d) (say c ("calling: " ++ cb_name cb) e))))).
    { destruct Ht as (Hty & Hq & Hc). unfold typed; simpl. rewrite say_calls.
      repeat split; auto. apply Forall_app; split; auto. }
    destruct r.
    + apply IH; assumption.
    + now split.
Qed.

Lemma run_loop_while_typed ty pending : forall n c e,
  Forall (fun v => isinstance v ty = true) pending ->
  typed ty (mkChanSt c e) ->
  typed ty (snd (run_loop_while pending n (mkChanSt c e))).
Proof.
  induction pending as [|d rest IH]; intros n c e Hp Ht.
  - exact Ht.
  - inversion Hp as [|? ? Hd Hrest]; subst.
    simpl run_loop_while. unfold bind at 1. unfold on_self, modify. simpl.
    unfold bind at 1. unfold gets at 1. simpl.
    unfold bind at 1.
    assert (Ht' : typed (var_type c) (mkChanSt (set_queue rest c) e)).
    { destruct Ht as (Hty & Hq & Hc). simpl in *. subst ty. unfold typed; simpl. auto. }
    destruct Ht as (Hty & _). simpl in Hty. subst ty.
    pose proof (@callbacks_typed (var_type c) d (callbacks c) (set_queue rest c) e Hd Ht') as Hcb.
    destruct (for_each (callbacks c) _ _) as [r [c1 e1]]. simpl in Hcb.
    destruct Hcb as (-> & Ht1).
    destruct r; [|exact Ht1].
    unfold bind at 1. unfold gets at 1. simpl.
    destruct (n + 1 >=? max_entries_per_loop c).
    + exact Ht1.
    + apply IH; assumption.
Qed.

Lemma run_loop_typed ty s : typed ty s -> typed ty (snd (run_loop s)).
Proof.
  destruct s as [c e]. intros Ht.
  unfold run_loop, try_except. unfold bind at 1. unfold gets at 1. simpl.
  pose proof (@run_loop_while_typed ty (queue c) 0 c e) as H.
  destruct (run_loop_while (queue c) 0 _) as [r [c1 e1]]. simpl in H.
  assert (Ht1 : typed ty (mkChanSt c1 e1)) by (apply H; [apply Ht | exact Ht]).
  destruct r; [exact Ht1|].
  destruct (exc_is_exception ex); [|exact Ht1].
  rewrite log_msg_run. simpl. now apply typed_say.
Qed.

Lemma history_typed ty ops : forall s, typed ty s -> typed ty (snd (history ops s)).
Proof.
  induction ops as [|op ops IH]; intros s Ht.
  - exact Ht.
  - unfold history in *. simpl. unfold bind.
    assert (H1 : typed ty (snd (apply_op op s))).
    { destruct op; simpl; [now apply send_typed | now apply subscribe_typed | now apply run_loop_typed]. }
    destruct (apply_op op s) as [r s1]. simpl in H1.
    destruct r; [now apply IH | exact H1].
Qed.

(** C2: a value that is not an instance of the declared type is dropped by
    [send]: the call returns, the channel (its queue included) is as it
    was, nothing is put and nobody is called; and whatever is then done
    with a channel of that type, no subscriber is ever called with the
    value. *)
Theorem send_wrong_type_is_dropped c e data :
  isinstance data (var_type c) = false ->
  (let '(r, s') := send data (mkChanSt c e) in
   r = Ret tt
   /\ self s' = c
   /\ puts (env s') = puts e
   /\ calls (env s') = calls e
   /\ world (env s') = world e)
  /\ (forall parent_name name e0 ops,
        calls e0 = [] ->
        let s := mkChanSt (ThreadChannel_init W parent_name name (var_type c)) e0 in
        ~ In data (map call_arg (calls (env (snd (history ops s)))))).
Proof.
  intros Hi. split.
  - rewrite send_run. unfold send_chan. simpl.
    rewrite send_env_puts, send_env_calls, send_env_world, Hi. now repeat split.
  - intros pn nm e0 ops He0 s Hin.
    assert (Ht : typed (var_type c) s).
    { unfold typed, s; simpl. rewrite He0. repeat split; constructor. }
    apply (@history_typed _ ops) in Ht. destruct Ht as (_ & _ & Hc).
    apply in_map_iff in Hin. destruct Hin as (cl & Hcl & Hin).
    rewrite Forall_forall in Hc. specialize (Hc cl Hin). rewrite Hcl in Hc. congruence.
Qed.
End Facts.

(** C1 as stated fails: a subscriber that raises ends the drain, so the
    value taken from the queue never reaches the subscriber after it; and
    with a bound of 0 one queued value is still taken, where
    [min(1, 0) = 0]. *)
Lemma run_loop_delivers_min_fails :
  ~ drain_delivers chan_raising env0 [PyInt 1]
  /\ ~ drain_delivers chan_zero env0 [PyInt 1].
Proof.
  split.
  - unfold drain_delivers. vm_compute. intros (_ & _ & H & _). discriminate H.
  - unfold drain_delivers. vm_compute. intros (_ & H & _). discriminate H.
Qed.

Lemma run_loop_delivers_min_witness :
  (queue chan_two = [] ->
   run_loop (mkChanSt chan_two env0) = (Ret tt, mkChanSt chan_two env0))
  /\ drain_delivers chan_two env0 [PyInt 1; PyInt 2; PyInt 3; PyInt 4; PyInt 5].
Proof.
  pose proof (@run_loop_delivers_min unit chan_two env0
                [PyInt 1; PyInt 2; PyInt 3; PyInt 4; PyInt 5]) as [H1 H2].
  split; [exact H1|].
  apply H2.
  - reflexivity.
  - repeat constructor.
  - vm_compute. discriminate.
  - repeat constructor.
Defined.

Lemma send_wrong_type_is_dropped_witness :
  (let '(r, s') := send (PyStr "50") (mkChanSt chan_two env0) in
   r = Ret tt
   /\ self s' = chan_two
   /\ puts (env s') = puts env0
   /\ calls (env s') = calls env0
   /\ world (env s') = world env0)
  /\ (forall parent_name name e0 ops,
        calls e0 = [] ->
        let s := mkChanSt (ThreadChannel_init unit parent_name name (var_type chan_two)) e0 in
        ~ In (PyStr "50") (map call_arg (calls (env (snd (history ops s)))))).
Proof.
  apply (@send_wrong_type_is_dropped unit chan_two env0 (PyStr "50")).
  reflexivity.
Defined.

End ChannelFacts.

(* ===================================================================== *)
(** ** Facts about a worker *)
(* ===================================================================== *)

Module WorkerFacts.
Import Worker Spec ChannelFacts.
Section Facts.
Variable W : Type.
Implicit Types (w : ThreadWorker W) (s : WorkerSt W) (a : Attr).

Lemma ThreadWorker_init_wf nm : wf (ThreadWorker_init W nm).
Proof. intros a; destruct a; split; reflexivity. Qed.

Lemma on_channel_send_run a data s :
  on_channel a (Channel.send data) s = (Ret tt, emit a data s).
Proof. unfold on_channel, zoom, emit. rewrite ChannelFacts.send_run. reflexivity. Qed.

Lemma send_chan_name (c : Channel.ThreadChannel W) data : Channel.name (send_chan c data) = Channel.name c.
Proof. unfold send_chan; destruct (isinstance _ _); reflexivity. Qed.

Lemma send_chan_var_type (c : Channel.ThreadChannel W) data :
  Channel.var_type (send_chan c data) = Channel.var_type c.
Proof. unfold send_chan; destruct (isinstance _ _); reflexivity. Qed.

Lemma emit_wf a data s : wf (self s) -> wf (self (emit a data s)).
Proof.
  intros Hwf b. specialize (Hwf b) as Hb. specialize (Hwf a) as Ha.
  destruct a, b; simpl; rewrite ?send_chan_name, ?send_chan_var_type; assumption.
Qed.

Lemma emit_puts a data s :
  wf (self s) -> isinstance data (attr_type a) = true ->
  Channel.puts (env (emit a data s)) = (Channel.puts (env s) ++ [ev a data])%list.
Proof.
  intros Hwf Hi. destruct (Hwf a) as (Hn & Ht). unfold emit. simpl.
  rewrite send_env_puts, Ht, Hi, Hn. reflexivity.
Qed.

Lemma emit_puts_dropped a data s :
  wf (self s) -> isinstance data (attr_type a) = false ->
  Channel.puts (env (emit a data s)) = Channel.puts (env s).
Proof.
  intros Hwf Hi. destruct (Hwf a) as (Hn & Ht). unfold emit. simpl.
  rewrite send_env_puts, Ht, Hi. reflexivity.
Qed.

Lemma worker_log_msg_run m s : log_msg m s = (Ret tt, logged m s).
Proof.
  unfold log_msg, logged, bind, gets, print, modify. destruct (debug (self s)); reflexivity.
Qed.

Lemma logged_self m s : self (logged m s) = self s.
Proof. unfold logged; destruct (debug (self s)); reflexivity. Qed.

Lemma logged_puts m s : Channel.puts (env (logged m s)) = Channel.puts (env s).
Proof. unfold logged; destruct (debug (self s)); reflexivity. Qed.





Lemma logged_wf m s : wf (self s) -> wf (self (logged m s)).
Proof. now rewrite logged_self. Qed.

Lemma started_wf s : wf (self s) -> wf (self (started s)).
Proof.
  intros Hwf. unfold started. apply emit_wf.
  pose proof (@emit_wf status_ (PyStr "Starting") _ (@logged_wf "Starting" s Hwf)) as H.
  intros a. destruct (H a) as (Hn & Ht). split; assumption.
Qed.

Lemma started_puts s :
  wf (self s) ->
  Channel.puts (env (started s))
  = (Channel.puts (env s) ++ [ev status_ (PyStr "Starting"); ev progress_ (PyInt 0)])%list.
Proof.
  intros Hwf. unfold started.
  rewrite emit_puts; [|apply (@emit_wf status_ (PyStr "Starting") _ (@logged_wf "Starting" s Hwf))|reflexivity].
  cbn [env]. rewrite emit_puts by (auto using logged_wf).
  rewrite logged_puts, <- app_assoc. reflexivity.
Qed.

Section EmitsOnly.

Variable P : Event -> Prop.

Lemma emits_only_ret A (a : A) : emits_only P (ret a : WM W A).
Proof. intros s Hwf. split; [exact Hwf|]. exists []. now rewrite app_nil_r. Qed.

Lemma emits_only_eval A (o : Outcome A) : emits_only P (eval o : WM W A).
Proof. intros s Hwf. split; [exact Hwf|]. exists []. now rewrite app_nil_r. Qed.

Lemma emits_only_bind A B (m : WM W A) (k : A -> WM W B) :
  emits_only P m -> (forall x, emits_only P (k x)) -> emits_only P (bind m k).
Proof.
  intros Hm Hk s Hwf. unfold bind.
  destruct (Hm s Hwf) as (Hwf1 & d1 & Hp1 & HP1).
  destruct (m s) as [[x|ex] s1]; simpl in *.
  - destruct (Hk x s1 Hwf1) as (Hwf2 & d2 & Hp2 & HP2).
    split; [exact Hwf2|]. exists (d1 ++ d2)%list.
    rewrite Hp2, Hp1, app_assoc. split; [reflexivity | now apply Forall_app].
  - split; [exact Hwf1|]. now exists d1.
Qed.

Lemma emits_only_try_except A (m : WM W A) (h : PyException -> WM W A) :
  emits_only P m -> (forall ex, emits_only P (h ex)) -> emits_only P (try_except m h).
Proof.
  intros Hm Hh s Hwf. unfold try_except.
  destruct (Hm s Hwf) as (Hwf1 & d1 & Hp1 & HP1).
  destruct (m s) as [[x|ex] s1]; simpl in *.
  - split; [exact Hwf1|]. now exists d1.
  - destruct (exc_is_exception ex).
    + destruct (Hh ex s1 Hwf1) as (Hwf2 & d2 & Hp2 & HP2).
      split; [exact Hwf2|]. exists (d1 ++ d2)%list.
      rewrite Hp2, Hp1, app_assoc. split; [reflexivity | now apply Forall_app].
    + split; [exact Hwf1|]. now exists d1.
Qed.

Lemma emits_only_send a data :
  (isinstance data (attr_type a) = true -> P (ev a data)) ->
  emits_only P (on_channel a (Channel.send data) : WM W unit).
Proof.
  intros HP s Hwf. rewrite on_channel_send_run. cbn [snd]. split; [now apply emit_wf|].
  destruct (isinstance data (attr_type a)) eqn:Hi.
  - exists [ev a data]. rewrite emit_puts by assumption. split; [reflexivity|].
    constructor; auto.
  - exists []. rewrite emit_puts_dropped by assumption. now rewrite app_nil_r.
Qed.

Lemma emits_only_print line : emits_only P (print line : WM W unit).
Proof. intros s Hwf. split; [exact Hwf|]. exists []. simpl. now rewrite app_nil_r. Qed.

Lemma emits_only_log_msg m : emits_only P (log_msg m : WM W unit).
Proof.
  intros s Hwf. rewrite worker_log_msg_run. simpl. rewrite logged_self, logged_puts.
  split; [exact Hwf|]. exists []. now rewrite app_nil_r.
Qed.

Lemma emits_only_sleep ms : emits_only P (sleep ms : WM W unit).
Proof. apply emits_only_ret. Qed.

Lemma emits_only_monitor_thread_start : emits_only P (@monitor_thread_start W).
Proof.
  intros s Hwf. unfold monitor_thread_start, bind, gets, modify, raise.
  destruct (monitor_thread (self s)); simpl; (split; [exact Hwf|]); exists [];
    now rewrite app_nil_r.
Qed.

Lemma emits_only_run thread_stop (ta : ThreadAction W) :
  (isinstance (PyStr "Starting") TStr = true -> P (ev status_ (PyStr "Starting"))) ->
  (isinstance (PyInt 0) TInt = true -> P (ev progress_ (PyInt 0))) ->
  emits_only P (@thread_action W ta) ->
  emits_only P (run thread_stop (H := ta)).
Proof.
  intros H1 H2 Hta. unfold run, cleanup, report_status, report_progress.
  repeat first
    [ assumption
    | apply emits_only_log_msg | apply emits_only_print | apply emits_only_sleep
    | apply emits_only_eval | apply emits_only_monitor_thread_start
    | apply emits_only_send; assumption
    | apply emits_only_try_except; [|intros ?]
    | apply emits_only_bind; [|intros ?] ].
Qed.

End EmitsOnly.

Variable thread_stop : Outcome unit.

(** [run], step by step, from a worker that has not been started: what
    [thread_action] raises is printed when it is an [Exception], and ends
    [run] there, before the cleanup, when it is not. *)
Lemma run_run (ta : ThreadAction W) s :
  monitor_thread (self s) = ThreadInitial ->
  run thread_stop (H := ta) s =
    let '(r1, s2) := @thread_action W ta (started s) in
    match r1 with
    | Ret _ =>
        match thread_stop with
        | Ret _ => (Ret tt, logged "Complete" (logged "Cleaning up" s2))
        | Raise ex => (Raise ex, logged "Cleaning up" s2)
        end
    | Raise ex =>
        if exc_is_exception ex then
          let s3 := printed ("Error while running threadworker: " ++ exc_str ex) s2 in
          match thread_stop with
          | Ret _ => (Ret tt, logged "Complete" (logged "Cleaning up" s3))
          | Raise ex' => (Raise ex', logged "Cleaning up" s3)
          end
        else (Raise ex, s2)
    end.
Proof.
  intros Hmt. unfold run.
  unfold bind at 1. rewrite worker_log_msg_run.
  unfold bind at 1. unfold report_status. rewrite on_channel_send_run.
  unfold bind at 1. unfold monitor_thread_start at 1. unfold bind at 1. unfold gets at 1.
  cbn [self emit]. 
  replace (monitor_thread (set_channels _ (self (logged "Starting" s)))) with ThreadInitial
    by (rewrite logged_self; destruct (self s); simpl in *; congruence).
  unfold modify at 1.
  unfold bind at 1. unfold report_progress. rewrite on_channel_send_run.
  fold (started s).
  unfold bind at 1. unfold try_except.
  destruct (@thread_action W ta (started s)) as [[[]|ex] s2].
  - unfold sleep, bind, ret, cleanup. unfold bind. rewrite worker_log_msg_run. unfold eval.
    destruct thread_stop as [[]|ex']; [rewrite worker_log_msg_run|]; reflexivity.
  - destruct (exc_is_exception ex); [|reflexivity].
    unfold print at 1, modify. fold (printed ("Error while running threadworker: " ++ exc_str ex) s2).
    unfold sleep, bind, ret, cleanup. unfold bind. rewrite worker_log_msg_run. unfold eval.
    destruct thread_stop as [[]|ex']; [rewrite worker_log_msg_run|]; reflexivity.
Qed.


(** What [thread_action] raises that is no [Exception] ([SystemExit],
    [KeyboardInterrupt]) is not caught: [run] raises it in turn, and stops
    there, without the cleanup. *)
Lemma run_lets_non_exception_through (ta : ThreadAction W) s ex s2 :
  monitor_thread (self s) = ThreadInitial ->
  @thread_action W ta (started s) = (Raise ex, s2) ->
  exc_is_exception ex = false ->
  run thread_stop (H := ta) s = (Raise ex, s2).
Proof.
  intros Hmt Hta Hex. rewrite run_run by assumption. now rewrite Hta, Hex.
Qed.

(** C7: when [thread_action] raises an instance of [Exception], which is
    what [except Exception] in [run] catches, [run] goes on to its cleanup:
    the outcome of [run] is the outcome of the cleanup call alone, never the
    exception of the task; the events of the run are status "Starting",
    progress 0 and those the task had put before it raised, and nothing is
    put after the fault; the fault is printed on the console.  (A raised
    object that is no [Exception], such as [SystemExit], is not caught: see
    [run_lets_non_exception_through].) *)
Theorem run_swallows_unreported_failure (ta : ThreadAction W) s ex s2 delta :
  wf (self s) ->
  monitor_thread (self s) = ThreadInitial ->
  @thread_action W ta (started s) = (Raise ex, s2) ->
  exc_is_exception ex = true ->
  Channel.puts (env s2) = (Channel.puts (env (started s)) ++ delta)%list ->
  let '(r, s3) := run thread_stop (H := ta) s in
  r = thread_stop
  /\ Channel.puts (env s3)
     = (Channel.puts (env s)
        ++ [ev status_ (PyStr "Starting"); ev progress_ (PyInt 0)] ++ delta)%list
  /\ In ("Error while running threadworker: " ++ exc_str ex) (Channel.console (env s3)).
Proof.
  intros Hwf Hmt Hta Hex Hdelta. rewrite run_run by assumption. rewrite Hta, Hex.
  cbv zeta.
  assert (Hputs : Channel.puts (env s2)
                  = (Channel.puts (env s)
                     ++ [ev status_ (PyStr "Starting"); ev progress_ (PyInt 0)] ++ delta)%list).
  { rewrite Hdelta, started_puts by assumption. now rewrite <- app_assoc. }
  assert (Hin : forall m1 line (t : WorkerSt W),
             In line (Channel.console (env t)) ->
             In line (Channel.console (env (logged m1 t)))).
  { intros m1 line t Ht. unfold logged. destruct (debug (self t)); [|exact Ht].
    simpl. apply in_or_app. now left. }
  destruct thread_stop as [[]|ex'].
  - split; [reflexivity|]. rewrite !logged_puts. split; [exact Hputs|].
    apply Hin, Hin. simpl. apply in_or_app. right. now left.
  - split; [reflexivity|]. rewrite !logged_puts. split; [exact Hputs|].
    apply Hin. simpl. apply in_or_app. right. now left.
Qed.


(** C10: [report_progress(p)] checks no range: for every integer [p],
    negative or above 100 included, it returns, [p] is appended to the
    queue of the progress channel and put as a progress event; and the
    next drain of that channel, when the queue held nothing else and no
    subscriber raises, hands [p] itself to every progress subscriber. *)
Theorem report_progress_any_int s (p : Z) :
  wf (self s) ->
  let c := progress (channels (self s)) in
  let '(r, s1) := report_progress (PyInt p) s in
  r = Ret tt
  /\ Channel.queue (progress (channels (self s1))) = (Channel.queue c ++ [PyInt p])%list
  /\ Channel.puts (env s1) = (Channel.puts (env s) ++ [ev progress_ (PyInt p)])%list
  /\ (Channel.queue c = [] ->
      Forall (@returns W) (Channel.callbacks c) ->
      let '(r2, s2) := on_channel progress_ (@Channel.run_loop W) s1 in
      r2 = Ret tt
      /\ Channel.calls (env s2)
         = (Channel.calls (env s)
            ++ map (fun cb => mkCall (Channel.cb_name cb) (PyInt p)) (Channel.callbacks c))%list
      /\ Channel.queue (progress (channels (self s2))) = []).
Proof.
  intros Hwf c. unfold report_progress. rewrite on_channel_send_run.
  destruct (Hwf progress_) as (Hn & Ht). simpl in Hn, Ht. fold c in Hn, Ht.
  assert (Hsc : send_chan c (PyInt p) = Channel.set_queue (Channel.queue c ++ [PyInt p])%list c).
  { unfold send_chan. now rewrite Ht. }
  split; [reflexivity|]. split; [|split].
  - unfold emit. simpl. fold c. now rewrite Hsc.
  - now apply emit_puts.
  - intros Hq Hret. unfold on_channel, zoom, emit. cbn [self env channels attr_get attr_set progress set_channels].
    fold c. rewrite Hsc.
    pose proof (@ChannelFacts.run_loop_run W
                  (Channel.set_queue (Channel.queue c ++ [PyInt p])%list c)
                  (send_env c (PyInt p) (env s)) Hret) as H.
    destruct (Channel.run_loop _) as [r2 [c2 e2]].
    cbn [Channel.self Channel.env Channel.queue Channel.callbacks Channel.set_queue] in H.
    rewrite Hq in H. simpl app in H.
    unfold taken in H. cbn [Channel.max_entries_per_loop Channel.set_queue List.length] in H.
    replace (Nat.min 1 (Z.to_nat (Z.max 1 (Channel.max_entries_per_loop c - 0)))) with 1%nat
      in H by lia.
    destruct H as (-> & Hc2 & Hcalls & _ & _).
    split; [reflexivity|]. cbn [self env channels progress set_channels Channel.self Channel.env].
    rewrite Hcalls, Hc2, send_env_calls. simpl. rewrite app_nil_r. now split.
Qed.

End Facts.



Lemma run_swallows_unreported_failure_witness :
  let ta := TicketCreator.TicketCreator_action unit sample_repr [item_without_id] in
  let '(r, s3) := run (Ret tt) (H := ta) sample_worker in
  r = Ret tt
  /\ Channel.puts (env s3)
     = (Channel.puts (env sample_worker)
        ++ [ev status_ (PyStr "Starting"); ev progress_ (PyInt 0)]
        ++ [ev status_ (PyStr "Creating tickets for 1 selected contracts");
            ev progress_ (PyInt 5)])%list
  /\ In ("Error while running threadworker: " ++ exc_str (mkExc "KeyError" "'id'"))
        (Channel.console (env s3)).
Proof.
  intros ta.
  apply (@run_swallows_unreported_failure unit (Ret tt) ta sample_worker
           (mkExc "KeyError" "'id'")
           (snd (@thread_action unit ta (started sample_worker)))).
  - intros a; destruct a; split; reflexivity.
  - reflexivity.
  - vm_compute; reflexivity.
  - reflexivity.
  - vm_compute; reflexivity.
Defined.

Lemma report_progress_any_int_witness :
  let c := progress (channels (self subscribed_worker)) in
  let '(r, s1) := report_progress (PyInt 250) subscribed_worker in
  r = Ret tt
  /\ Channel.queue (progress (channels (self s1))) = (Channel.queue c ++ [PyInt 250])%list
  /\ Channel.puts (env s1)
     = (Channel.puts (env subscribed_worker) ++ [ev progress_ (PyInt 250)])%list
  /\ (Channel.queue c = [] ->
      Forall (@returns unit) (Channel.callbacks c) ->
      let '(r2, s2) := on_channel progress_ (@Channel.run_loop unit) s1 in
      r2 = Ret tt
      /\ Channel.calls (env s2)
         = (Channel.calls (env subscribed_worker)
            ++ map (fun cb => mkCall (Channel.cb_name cb) (PyInt 250)) (Channel.callbacks c))%list
      /\ Channel.queue (progress (channels (self s2))) = []).
Proof.
  apply (@report_progress_any_int unit subscribed_worker 250).
  intros a; destruct a; split; reflexivity.
Defined.

End WorkerFacts.

(* ===================================================================== *)
(** ** Facts about the ticket task *)
(* ===================================================================== *)

Module TicketFacts.
Import Worker Spec ChannelFacts WorkerFacts.
Section Facts.
Variable W : Type.
Variable repr_dict : list (string * PyVal) -> string.
Variable thread_stop : Outcome unit.

Lemma for_items_emits_only (P : Event -> Prop) items : forall num_selected count num_created,
  (forall v, P (ev status_ v)) -> (forall v, P (ev progress_ v)) ->
  emits_only P (TicketCreator.for_items repr_dict items num_selected count num_created
                : WM W Z).
Proof.
  induction items as [|item rest IH]; intros k count created Hs Hp; simpl.
  - apply emits_only_ret.
  - repeat first
      [ apply emits_only_eval | apply emits_only_sleep
      | apply emits_only_send; intros _; solve [apply Hs | apply Hp]
      | apply IH; assumption
      | apply emits_only_bind; [|intros ?] ].
Qed.

Lemma thread_action_emits_only (P : Event -> Prop) items :
  (forall v, P (ev status_ v)) -> (forall v, P (ev progress_ v)) ->
  (forall v, P (ev result_ v)) ->
  emits_only P (TicketCreator.thread_action repr_dict items : WM W unit).
Proof.
  intros Hs Hp Hr. unfold TicketCreator.thread_action.
  destruct (len items =? 0).
  - apply emits_only_send; intros _; apply Hs.
  - repeat first
      [ apply emits_only_send; intros _; solve [apply Hs | apply Hp | apply Hr]
      | apply for_items_emits_only; assumption
      | apply emits_only_bind; [|intros ?] ].
Qed.

(** Whatever the items, a run of the ticket task puts nothing on the
    success channel and nothing on the error channel. *)
Lemma run_reports_no_success_no_error items (e : Channel.Env W) :
  exists delta,
    Channel.puts (env (snd (TicketCreator.run repr_dict thread_stop items e)))
    = (Channel.puts e ++ delta)%list
    /\ Forall (fun x => ev_channel x <> "success" /\ ev_channel x <> "error") delta.
Proof.
  unfold TicketCreator.run.
  set (P := fun x : Event => ev_channel x <> "success" /\ ev_channel x <> "error").
  assert (Hrun : emits_only P
            (run thread_stop (H := TicketCreator.TicketCreator_action W repr_dict items))).
  { apply emits_only_run.
    - intros _; split; discriminate.
    - intros _; split; discriminate.
    - apply thread_action_emits_only; intros v; split; discriminate. }
  destruct (Hrun (mkWorkerSt (TicketCreator.TicketCreator_init W items) e)
              (ThreadWorker_init_wf W "TicketCreator")) as (_ & delta & Hd).
  exists delta. exact Hd.
Qed.


Lemma percents_returns num_selected n : forall count,
  0 <= count -> count + Z.of_nat n <= num_selected ->
  exists ps, map Ret ps = percents num_selected count n.
Proof.
  induction n as [|n IH]; intros count H0 Hle.
  - now exists [].
  - destruct (@FloatFacts.percent_returns count num_selected ltac:(lia)) as (p & Hp).
    destruct (IH (count + 1) ltac:(lia) ltac:(lia)) as (ps & Hps).
    exists (p :: ps). simpl. now rewrite Hp, Hps.
Qed.

(** The loop over the items, when every item has an identifier and every
    rounding returns. *)
Lemma for_items_run num_selected items : forall ids ps count num_created (s : WorkerSt W),
  Forall2 has_id items ids ->
  map Ret ps = percents num_selected count (List.length items) ->
  wf (self s) ->
  exists s',
    TicketCreator.for_items repr_dict items num_selected count num_created s
    = (Ret (num_created + len items), s')
    /\ wf (self s')
    /\ Channel.puts (env s')
       = (Channel.puts (env s) ++ flat_map (item_events repr_dict) (combine ids ps))%list.
Proof.
  induction items as [|item rest IH]; intros ids ps count created s Hids Hps Hwf.
  - inversion Hids; subst. exists s. unfold len, ret. simpl.
    rewrite Z.add_0_r, app_nil_r. split; [reflexivity | split; [exact Hwf | reflexivity]].
  - inversion Hids as [|? id ? ids' Hid Hids']; subst.
    destruct ps as [|p ps']; [discriminate|]. simpl in Hps.
    injection Hps as Hp Hps'.
    simpl TicketCreator.for_items.
    unfold bind at 1. unfold eval at 1. unfold has_id in Hid. rewrite Hid.
    unfold bind at 1. unfold eval at 1. rewrite <- Hp.
    unfold bind at 1. unfold report_status. rewrite on_channel_send_run.
    unfold bind at 1. unfold sleep at 1, ret.
    unfold bind at 1. unfold report_progress. rewrite on_channel_send_run.
    match goal with |- context [TicketCreator.for_items _ _ _ _ _ ?s1] =>
      destruct (IH ids' ps' (count + 1) (created + 1) s1 Hids' Hps') as (s' & Hrun & Hwf' & Hputs)
    end.
    { auto using emit_wf. }
    exists s'. rewrite Hrun. split; [|split; [exact Hwf'|]].
    + f_equal. f_equal. unfold len. simpl List.length. lia.
    + rewrite Hputs. rewrite !emit_puts; auto using emit_wf.
      simpl. now rewrite <- !app_assoc.
Qed.



(** The events of a run over a non-empty list of items that all have an
    identifier, given the progress values the roundings return. *)
Lemma run_events items ids ps (e : Channel.Env W) :
  items <> [] ->
  Forall2 has_id items ids ->
  map Ret ps = percents (len items) 0 (List.length items) ->
  let '(r, s') := TicketCreator.run repr_dict thread_stop items e in
  r = thread_stop
  /\ Channel.puts (env s')
     = (Channel.puts e ++ ticket_events repr_dict (len items) ids ps)%list.
Proof.
  intros Hne Hids Hps.
  remember (len items) as k eqn:Ek.
  assert (Hk : (k =? 0) = false).
  { subst k. unfold len. destruct items; [contradiction|]. simpl List.length.
    apply Z.eqb_neq. lia. }
  set (s0 := mkWorkerSt (TicketCreator.TicketCreator_init W items) e).
  assert (Hwf0 : wf (self s0)) by apply ThreadWorker_init_wf.
  pose proof (@started_wf W s0 Hwf0) as Hwf1.
  pose proof (@started_puts W s0 Hwf0) as Hp1.
  unfold TicketCreator.run. fold s0. rewrite run_run by reflexivity.
  cbn [thread_action TicketCreator.TicketCreator_action].
  unfold TicketCreator.thread_action. rewrite <- Ek. rewrite Hk.
  unfold bind at 1. unfold report_status. rewrite on_channel_send_run.
  unfold bind at 1. unfold report_progress. rewrite on_channel_send_run.
  unfold bind at 1.
  match goal with |- context [TicketCreator.for_items _ _ _ _ _ ?s1] =>
    destruct (@for_items_run k items ids ps 0 0 s1 Hids Hps) as (s2 & Hrun & Hwf2 & Hp2)
  end.
  { auto using emit_wf. }
  rewrite Hrun, <- Ek. unfold bind at 1. rewrite on_channel_send_run.
  unfold bind at 1. rewrite on_channel_send_run. unfold report_result.
  rewrite on_channel_send_run.
  assert (Hputs :
    Channel.puts (env (emit result_
      (PyDict [("created", PyInt (0 + k)); ("selected", PyInt k); ("skipped", PyInt 0)])
      (emit status_
         (PyStr ("Of " ++ str_of_int k ++ " selected contracts, "
                   ++ str_of_int (0 + k) ++ " tickets were created, and "
                   ++ str_of_int 0 ++ " were skipped"))
         (emit progress_ (PyInt 100) s2))))
    = (Channel.puts e ++ ticket_events repr_dict k ids ps)%list).
  { rewrite !emit_puts; auto using emit_wf.
    rewrite Hp2. rewrite !emit_puts; auto using emit_wf.
    rewrite Hp1. unfold ticket_events. simpl. rewrite <- !app_assoc. reflexivity. }
  destruct thread_stop as [[]|ex0]; (split; [reflexivity|]);
    rewrite ?logged_puts; exact Hputs.
Qed.




(** C4, at the empty list: the run puts status "Starting", progress 0 and
    the status "Creating 0 tickets, no contracts selected", and nothing
    else: no error, no result and no success event. *)
Theorem run_empty_list_reports_no_outcome (e : Channel.Env W) :
  let '(r, s') := TicketCreator.run repr_dict thread_stop [] e in
  r = thread_stop
  /\ Channel.puts (env s')
     = (Channel.puts e
        ++ [ev status_ (PyStr "Starting");
            ev progress_ (PyInt 0);
            ev status_ (PyStr "Creating 0 tickets, no contracts selected")])%list.
Proof.
  unfold TicketCreator.run. rewrite run_run by reflexivity.
  cbn [thread_action TicketCreator.TicketCreator_action].
  unfold TicketCreator.thread_action. cbn [len List.length Z.of_nat Z.eqb].
  unfold report_status. rewrite on_channel_send_run.
  destruct thread_stop as [[]|ex]; (split; [reflexivity|]);
    rewrite ?logged_puts, emit_puts, started_puts;
    try apply started_wf; try apply ThreadWorker_init_wf; try reflexivity.
  - now rewrite <- app_assoc.
  - now rewrite <- app_assoc.
Qed.

(** C3, at one item with an identifier: the run puts a result event and
    no success event. *)
Theorem run_one_item_reports_no_success (e : Channel.Env W) :
  let '(r, s') :=
    TicketCreator.run repr_dict thread_stop [PyDict [("id", PyStr "42")]] e in
  r = thread_stop
  /\ Channel.puts (env s')
     = (Channel.puts e
        ++ [ev status_ (PyStr "Starting");
            ev progress_ (PyInt 0);
            ev status_ (PyStr "Creating tickets for 1 selected contracts");
            ev progress_ (PyInt 5);
            ev status_ (PyStr "Creating tickets for Contract ID: 42");
            ev progress_ (PyInt 100);
            ev progress_ (PyInt 100);
            ev status_ (PyStr "Of 1 selected contracts, 1 tickets were created, and 0 were skipped");
            ev result_ (PyDict [("created", PyInt 1); ("selected", PyInt 1);
                                ("skipped", PyInt 0)])])%list.
Proof.
  assert (Hne : [PyDict [("id", PyStr "42")]] <> []) by discriminate.
  assert (Hids : Forall2 has_id [PyDict [("id", PyStr "42")]] [PyStr "42"])
    by (repeat constructor).
  assert (Hps : map Ret [100] = percents (len [PyDict [("id", PyStr "42")]]) 0 1)
    by (vm_compute; reflexivity).
  pose proof (@run_events _ _ _ e Hne Hids Hps) as H.
  destruct (TicketCreator.run _ _ _ _) as [r s'].
  destruct H as (Hr & Hp). split; [exact Hr|]. rewrite Hp. f_equal.
Qed.

End Facts.


(** The run over the three sample items: progress 0, 5, 33, 67, 100, 100
    and the result [{created: 3, selected: 3, skipped: 0}]. *)
Example run_sample_items :
  let evs := Channel.puts (env (snd (TicketCreator.run sample_repr (Ret tt) sample_items env0))) in
  progress_values evs = [PyInt 0; PyInt 5; PyInt 33; PyInt 67; PyInt 100; PyInt 100]
  /\ filter (fun x => String.eqb (ev_channel x) "result") evs
     = [ev result_ (PyDict [("created", PyInt 3); ("selected", PyInt 3);
                            ("skipped", PyInt 0)])].
Proof. vm_compute. split; reflexivity. Qed.

(** Rounding is to the nearest integer with ties to even, on the float
    the division and the product give: 1 of 8 is 12, 3 of 8 is 38, and
    115 of 200 is 57. *)
Example percent_ties :
  TicketCreator.percent 0 8 = Ret 12
  /\ TicketCreator.percent 2 8 = Ret 38
  /\ TicketCreator.percent 114 200 = Ret 57.
Proof. vm_compute. repeat split; reflexivity. Qed.

End TicketFacts.

(* ===================================================================== *)
(** ** Facts about the communicator *)
(* ===================================================================== *)

Module CommunicatorFacts.
Import Worker Spec Communicator.

(** C8: a communicator without a progress bar handles a progress event
    by doing nothing: [on_progress] returns without raising and leaves
    the subscriber side as it was, so no widget item is set and no
    refresh is requested; the same holds when the event goes the whole
    way, from [report_progress] through a drain of the progress channel
    of a worker the communicator was set up on. *)
Theorem on_progress_without_progressbar repr_dict (c : ThreadWorkerCommunicator)
    (progress : PyVal) (u : UI) (worker_name : string) :
  progressbar c = None ->
  on_progress c progress u = (Ret tt, u)
  /\ (isinstance progress TInt = true ->
      let s0 := mkWorkerSt (ThreadWorker_init UI worker_name) (Channel.mkEnv u [] [] []) in
      let '(_, s1) := setup repr_dict c s0 in
      let '(_, s2) := report_progress progress s1 in
      let '(r, s3) := on_channel progress_ (@Channel.run_loop UI) s2 in
      r = Ret tt
      /\ Channel.calls (env s3) = [mkCall "on_progress" progress]
      /\ Channel.world (env s3) = Channel.world (env s2)).
Proof.
  intros Hnone. destruct c as [nm pb sl dbg]. simpl in Hnone. subst pb.
  split; [reflexivity|].
  intros Hi. destruct progress; try discriminate Hi; vm_compute; repeat split; reflexivity.
Qed.

Lemma on_progress_without_progressbar_witness :
  on_progress sample_communicator (PyInt 33) [Message "Setting up"]
  = (Ret tt, [Message "Setting up"])
  /\ (isinstance (PyInt 33) TInt = true ->
      let s0 := mkWorkerSt (ThreadWorker_init UI "TicketCreator")
                  (Channel.mkEnv [Message "Setting up"] [] [] []) in
      let '(_, s1) := setup sample_repr sample_communicator s0 in
      let '(_, s2) := report_progress (PyInt 33) s1 in
      let '(r, s3) := on_channel progress_ (@Channel.run_loop UI) s2 in
      r = Ret tt
      /\ Channel.calls (env s3) = [mkCall "on_progress" (PyInt 33)]
      /\ Channel.world (env s3) = Channel.world (env s2)).
Proof.
  apply (@on_progress_without_progressbar sample_repr sample_communicator (PyInt 33)
           [Message "Setting up"] "TicketCreator").
  reflexivity.
Defined.

End CommunicatorFacts.

(* ===================================================================== *)
(** ** More facts about a channel *)
(* ===================================================================== *)

Module ChannelMore.
Import Channel Spec ChannelFacts.
Section Facts.
Variable W : Type.
Implicit Types (c : ThreadChannel W) (e : Env W) (s : ChanSt W).

(** X1: sending any values, one after the other, never raises; the queue
    gains exactly the values that are instances of the declared type, in
    the order sent, each one put once; nobody is called. *)
Theorem sends_queue_the_well_typed vs : forall c e,
  let ok := fun v => isinstance v (var_type c) in
  let '(r, s') := sends vs (mkChanSt c e) in
  r = Ret tt
  /\ self s' = set_queue (queue c ++ filter ok vs)%list c
  /\ puts (env s') = (puts e ++ map (mkEvent (name c)) (filter ok vs))%list
  /\ calls (env s') = calls e
  /\ world (env s') = world e.
Proof.
  induction vs as [|v vs IH]; intros c e ok.
  - simpl. rewrite !app_nil_r, set_queue_same. now repeat split.
  - unfold sends in *. simpl for_each. unfold bind at 1. rewrite send_run.
    specialize (IH (send_chan c v) (send_env c v e)).
    destruct (for_each vs _ _) as [r s'].
    destruct IH as (Hr & Hs & Hp & Hc & Hw).
    rewrite Hs, Hp, Hc, Hw, send_env_calls, send_env_world, send_env_puts.
    unfold send_chan. simpl filter. fold ok.
    destruct (ok v) eqn:Hv; unfold ok in Hv; rewrite Hv; simpl;
      rewrite <- ?app_assoc; now repeat split.
Qed.

Lemma callbacks_any (d : PyVal) c cbs : forall e,
  let '(r, s') := for_each cbs (fun this_callback =>
      log_msg ("calling: " ++ cb_name this_callback) ;; invoke this_callback d)
      (mkChanSt c e) in
  self s' = c /\ puts (env s') = puts e
  /\ (exists n, (n <= List.length cbs)%nat
       /\ calls (env s') = (calls e ++ map (fun cb => mkCall (cb_name cb) d) (firstn n cbs))%list)
  /\ (forall ex, r = Raise ex -> More.raised_by cbs ex).
Proof.
  induction cbs as [|cb cbs IH]; intros e.
  - simpl. repeat split.
    + exists 0%nat. simpl. now rewrite app_nil_r.
    + discriminate.
  - simpl for_each. unfold bind at 1. unfold bind at 1. rewrite log_msg_run.
    unfold invoke. simpl.
    destruct (cb_call cb d _) as [[[]|ex] w'] eqn:Hcall.
    + match goal with |- context [for_each cbs _ (mkChanSt c ?e1)] => specialize (IH e1) end.
      destruct (for_each cbs _ _) as [r s'].
      destruct IH as (Hs & Hp & (n & Hn & Hc) & Hex). simpl in Hp, Hc. rewrite say_puts in Hp.
      rewrite say_calls in Hc.
      repeat split; auto.
      * exists (S n). split; [simpl; lia|].
        rewrite Hc. simpl. now rewrite <- app_assoc.
      * intros ex Hr. destruct (Hex ex Hr) as (cb' & d' & w0 & Hin & Hcb).
        exists cb', d', w0. split; [now right | exact Hcb].
    + simpl. rewrite say_puts, say_calls. repeat split.
      * exists 1%nat. split; [simpl; lia|]. reflexivity.
      * intros ex' Hr. injection Hr as <-.
        eexists cb, d, _. split; [now left|]. now rewrite Hcall.
Qed.

Lemma run_loop_while_any c : forall pending n e,
  let '(r, s') := run_loop_while pending n (mkChanSt (set_queue pending c) e) in
  puts (env s') = puts e
  /\ (exists k l,
       (k <= taken c n pending)%nat
       /\ self s' = set_queue (skipn k pending) c
       /\ calls (env s') = (calls e ++ l)%list
       /\ Forall (fun cl => In (call_arg cl) (firstn k pending)) l)
  /\ (forall ex, r = Raise ex -> More.raised_by (callbacks c) ex).
Proof.
  induction pending as [|d rest IH]; intros n e.
  - simpl. split; [reflexivity|]. split; [|discriminate].
    exists 0%nat, []. rewrite app_nil_r. repeat split; auto.
  - simpl run_loop_while. unfold bind at 1. unfold on_self, modify. simpl.
    unfold bind at 1. unfold gets at 1. simpl.
    unfold bind at 1.
    pose proof (@callbacks_any d (set_queue rest c) (callbacks c) e) as Hcb.
    destruct (for_each (callbacks c) _ _) as [r [c1 e1]]. simpl in Hcb.
    destruct Hcb as (-> & Hp1 & (m & Hm & Hc1) & Hex1).
    assert (Hk1 : (1 <= taken c n (d :: rest))%nat) by (unfold taken; simpl List.length; lia).
    assert (Hl1 : Forall (fun cl => In (call_arg cl) [d])
                    (map (fun cb => mkCall (cb_name cb) d) (firstn m (callbacks c)))).
    { apply Forall_forall. intros cl Hin. apply in_map_iff in Hin.
      destruct Hin as (cb & <- & _). simpl. now left. }
    destruct r as [[]|ex].
    + unfold bind at 1. unfold gets at 1. simpl.
      destruct (n + 1 >=? max_entries_per_loop c) eqn:Hge.
      * unfold ret. simpl. split; [exact Hp1|]. split; [|discriminate].
        exists 1%nat, (map (fun cb => mkCall (cb_name cb) d) (firstn m (callbacks c))).
        repeat split; auto.
      * specialize (IH (n + 1) e1).
        destruct (run_loop_while rest (n + 1) _) as [r s2].
        destruct IH as (Hp2 & (k & l & Hk & Hs2 & Hc2 & Hl2) & Hex2).
        split; [congruence|]. split; [|exact Hex2].
        exists (S k), (map (fun cb => mkCall (cb_name cb) d) (firstn m (callbacks c)) ++ l)%list.
        repeat split.
        -- unfold taken in *. simpl List.length. lia.
        -- exact Hs2.
        -- rewrite Hc2, Hc1. now rewrite <- app_assoc.
        -- apply Forall_app. split.
           ++ eapply Forall_impl; [|exact Hl1]. intros cl [H|[]]. simpl. now left.
           ++ eapply Forall_impl; [|exact Hl2]. intros cl H. simpl. now right.
    + simpl. split; [exact Hp1|]. split; [|exact Hex1].
      exists 1%nat, (map (fun cb => mkCall (cb_name cb) d) (firstn m (callbacks c))).
      repeat split; auto.
Qed.

(** One drain, whatever the subscribers do: it returns, unless a subscriber
    raised something that is no [Exception], which then leaves [run_loop];
    either way nothing is put, at most [max(1, max_entries_per_loop)]
    values are taken from the front of the queue, and every call made is
    for one of them. *)
Lemma run_loop_any c e :
  let '(r, s') := run_loop (mkChanSt c e) in
  (r = Ret tt
   \/ exists ex, r = Raise ex /\ exc_is_exception ex = false /\ More.raised_by (callbacks c) ex)
  /\ puts (env s') = puts e
  /\ exists k l,
       (k <= taken c 0 (queue c))%nat
       /\ self s' = set_queue (skipn k (queue c)) c
       /\ calls (env s') = (calls e ++ l)%list
       /\ Forall (fun cl => In (call_arg cl) (firstn k (queue c))) l.
Proof.
  unfold run_loop, try_except. unfold bind at 1. unfold gets at 1. simpl.
  pose proof (@run_loop_while_any c (queue c) 0 e) as H.
  rewrite set_queue_same in H.
  destruct (run_loop_while (queue c) 0 _) as [[[]|ex] [c1 e1]].
  - destruct H as (Hp & Hk & _). split; [now left|]. now split.
  - destruct H as (Hp & Hk & Hex).
    destruct (exc_is_exception ex) eqn:Hcls.
    + rewrite log_msg_run. simpl in *. rewrite say_puts, say_calls.
      split; [now left|]. now split.
    + split; [|now split]. right. exists ex. repeat split; auto.
Qed.

Lemma raised_by_exception (cbs : list (Callback W)) ex :
  Forall (@More.raises_exceptions_only W) cbs -> More.raised_by cbs ex ->
  exc_is_exception ex = true.
Proof.
  intros Hall (cb & d & w & Hin & Hcb).
  rewrite Forall_forall in Hall. exact (Hall cb Hin d w ex Hcb).
Qed.

(** X2: when the subscribers raise nothing but instances of [Exception]
    (they may return, or raise what [except Exception] catches), [run_loop]
    returns without raising, puts nothing, takes at most
    [max(1, max_entries_per_loop)] values from the front of the queue and
    leaves the rest in order; every call it makes is for one of the values
    it took. *)
Theorem run_loop_returns_despite_exceptions c e :
  Forall (@More.raises_exceptions_only W) (callbacks c) ->
  let '(r, s') := run_loop (mkChanSt c e) in
  r = Ret tt
  /\ puts (env s') = puts e
  /\ exists k l,
       (k <= taken c 0 (queue c))%nat
       /\ self s' = set_queue (skipn k (queue c)) c
       /\ calls (env s') = (calls e ++ l)%list
       /\ Forall (fun cl => In (call_arg cl) (firstn k (queue c))) l.
Proof.
  intros Hall. pose proof (@run_loop_any c e) as H.
  destruct (run_loop _) as [r s']. destruct H as ([Hr | (ex & Hr & Hcls & Hby)] & Hrest).
  - now split.
  - rewrite (raised_by_exception Hall Hby) in Hcls. discriminate.
Qed.

(** The loop over the subscribers up to one that raises. *)
Lemma callbacks_raise (d : PyVal) c pre cb post ex : forall e,
  Forall (@returns W) pre ->
  (forall w, fst (cb_call cb d w) = Raise ex) ->
  let '(r, s') := for_each (pre ++ cb :: post)%list (fun this_callback =>
      log_msg ("calling: " ++ cb_name this_callback) ;; invoke this_callback d)
      (mkChanSt c e) in
  r = Raise ex /\ self s' = c /\ puts (env s') = puts e
  /\ calls (env s')
     = (calls e ++ map (fun x => mkCall (cb_name x) d) pre ++ [mkCall (cb_name cb) d])%list.
Proof.
  induction pre as [|p pre IH]; intros e Hpre Hcb.
  - simpl for_each. unfold bind at 1. unfold bind at 1. rewrite log_msg_run.
    unfold invoke. simpl.
    pose proof (Hcb (world (say c ("calling: " ++ cb_name cb) e))) as Hr.
    destruct (cb_call cb d _) as [r w']. simpl in Hr. subst r. simpl.
    rewrite say_puts, say_calls. now repeat split.
  - inversion Hpre as [|? ? Hp Hpre']; subst.
    simpl for_each. unfold bind at 1. unfold bind at 1. rewrite log_msg_run.
    unfold invoke. simpl.
    pose proof (Hp d (world (say c ("calling: " ++ cb_name p) e))) as Hr.
    destruct (cb_call p d _) as [r w']. simpl in Hr. subst r.
    match goal with |- context [for_each _ _ (mkChanSt c ?e1)] =>
      specialize (IH e1 Hpre' Hcb) end.
    destruct (for_each _ _ _) as [r s'].
    destruct IH as (Hr & Hs & Hp1 & Hc1). simpl in Hp1, Hc1.
    rewrite say_puts in Hp1. rewrite say_calls in Hc1.
    repeat split; auto. rewrite Hc1. now rewrite <- app_assoc.
Qed.

(** X3: when a subscriber raises on the value at the head of the queue,
    the drain ends there: the value has left the queue, the subscribers
    registered before were called with it, the ones registered after are
    not, and the values behind it stay queued.  [run_loop] itself returns
    when what was raised is an instance of [Exception]; anything else
    ([SystemExit], [KeyboardInterrupt]) is raised by [run_loop] in turn. *)
Theorem run_loop_raising_subscriber_loses_value c e d rest pre cb post ex :
  queue c = d :: rest ->
  callbacks c = (pre ++ cb :: post)%list ->
  Forall (@returns W) pre ->
  (forall w, fst (cb_call cb d w) = Raise ex) ->
  let '(r, s') := run_loop (mkChanSt c e) in
  r = (if exc_is_exception ex then Ret tt else Raise ex)
  /\ queue (self s') = rest
  /\ calls (env s')
     = (calls e ++ map (fun x => mkCall (cb_name x) d) pre ++ [mkCall (cb_name cb) d])%list
  /\ puts (env s') = puts e.
Proof.
  intros Hq Hcbs Hpre Hcb.
  unfold run_loop, try_except. unfold bind at 1. unfold gets at 1. simpl. rewrite Hq.
  simpl run_loop_while. unfold bind at 1. unfold on_self, modify. simpl.
  unfold bind at 1. unfold gets at 1. simpl. rewrite Hcbs.
  unfold bind at 1.
  pose proof (@callbacks_raise d (set_queue rest c) pre cb post ex e Hpre Hcb) as H.
  destruct (for_each _ _ _) as [r [c1 e1]]. simpl in H.
  destruct H as (-> & -> & Hp & Hc).
  destruct (exc_is_exception ex).
  - rewrite log_msg_run. simpl. rewrite say_puts, say_calls. now repeat split.
  - now repeat split.
Qed.

Lemma firstn_add A (l : list A) : forall a b,
  firstn (a + b) l = (firstn a l ++ firstn b (skipn a l))%list.
Proof.
  induction l as [|x l IH]; intros [|a] b; simpl; try reflexivity.
  - now rewrite firstn_nil.
  - now rewrite IH.
Qed.

Lemma skipn_add A (l : list A) : forall a b, skipn b (skipn a l) = skipn (a + b) l.
Proof.
  induction l as [|x l IH]; intros [|a] b; simpl; try reflexivity.
  - now rewrite skipn_nil.
  - apply IH.
Qed.

Lemma firstn_min A (l : list A) n : firstn (Nat.min (List.length l) n) l = firstn n l.
Proof.
  destruct (Nat.le_gt_cases n (List.length l)) as [H|H].
  - now rewrite Nat.min_r.
  - rewrite Nat.min_l by lia. rewrite firstn_all. symmetry. apply firstn_all2. lia.
Qed.

Lemma skipn_min A (l : list A) n : skipn (Nat.min (List.length l) n) l = skipn n l.
Proof.
  destruct (Nat.le_gt_cases n (List.length l)) as [H|H].
  - now rewrite Nat.min_r.
  - rewrite Nat.min_l by lia. rewrite skipn_all. symmetry. apply skipn_all2. lia.
Qed.

Lemma deliveries_app (cbs : list (Callback W)) vs vs' :
  deliveries cbs (vs ++ vs') = (deliveries cbs vs ++ deliveries cbs vs')%list.
Proof. unfold deliveries. apply flat_map_app. Qed.

(** Successive drains, from a queue [q]. *)
Lemma drains_compose_from c :
  Forall (@returns W) (callbacks c) ->
  1 <= max_entries_per_loop c ->
  forall n q e,
  let m := Z.to_nat (max_entries_per_loop c) in
  let '(r, s') := history (repeat (OpRunLoop W) n) (mkChanSt (set_queue q c) e) in
  r = Ret tt
  /\ self s' = set_queue (skipn (n * m) q) c
  /\ calls (env s') = (calls e ++ deliveries (callbacks c) (firstn (n * m) q))%list
  /\ puts (env s') = puts e.
Proof.
  intros Hret Hmax. induction n as [|n IH]; intros q e m.
  - simpl. rewrite app_nil_r. now repeat split.
  - unfold history in *. simpl repeat. simpl for_each. unfold bind at 1.
    simpl apply_op.
    assert (Hret' : Forall (@returns W) (callbacks (set_queue q c))) by exact Hret.
    pose proof (@run_loop_run W (set_queue q c) e Hret') as H.
    destruct (run_loop _) as [r1 [c1 e1]]. simpl in H.
    unfold taken in H. simpl in H.
    replace (Z.to_nat (Z.max 1 (max_entries_per_loop c - 0))) with m in H by (unfold m; lia).
    rewrite firstn_min, skipn_min in H.
    destruct H as (-> & -> & Hc1 & Hw1 & Hp1).
    specialize (IH (skipn m q) e1). fold m in IH.
    destruct (for_each _ _ _) as [r s'].
    destruct IH as (-> & Hs & Hc & Hp).
    replace (S n * m)%nat with (m + n * m)%nat by lia.
    rewrite firstn_add, deliveries_app, <- skipn_add.
    rewrite Hs, Hc, Hc1, Hp, Hp1, <- app_assoc. now repeat split.
Qed.

(** X4: [n] drains in a row, when no subscriber raises and the bound [m]
    is at least 1, deliver the first [n * m] queued values, oldest first,
    each to every subscriber, none twice and none skipped, and leave the
    others queued. *)
Theorem drains_compose c e n :
  Forall (@returns W) (callbacks c) ->
  1 <= max_entries_per_loop c ->
  let m := Z.to_nat (max_entries_per_loop c) in
  let '(r, s') := history (repeat (OpRunLoop W) n) (mkChanSt c e) in
  r = Ret tt
  /\ queue (self s') = skipn (n * m) (queue c)
  /\ calls (env s') = (calls e ++ deliveries (callbacks c) (firstn (n * m) (queue c)))%list
  /\ puts (env s') = puts e.
Proof.
  intros Hret Hmax m.
  pose proof (@drains_compose_from c Hret Hmax n (queue c) e) as H.
  rewrite set_queue_same in H. fold m in H.
  destruct (history _ _) as [r s']. destruct H as (Hr & Hs & Hc & Hp).
  rewrite Hs. now repeat split.
Qed.

Lemma history_app ops : forall ops' s,
  history (ops ++ ops') s
  = match history ops s with
    | (Ret _, s1) => history ops' s1
    | (Raise ex, s1) => (Raise ex, s1)
    end.
Proof.
  unfold history. induction ops as [|op ops IH]; intros ops' s; simpl.
  - reflexivity.
  - unfold bind. destruct (apply_op op s) as [[[]|ex] s1]; [apply IH | reflexivity].
Qed.

Lemma history_sends vs : forall s, history (map (@OpSend W) vs) s = sends vs s.
Proof.
  unfold history, sends. induction vs as [|v vs IH]; intros s; simpl; [reflexivity|].
  unfold bind. simpl. destruct (send v s) as [[[]|ex] s1]; [apply IH | reflexivity].
Qed.

Lemma deliveries_single (cb : Callback W) vs :
  deliveries [cb] vs = map (fun v => mkCall (cb_name cb) v) vs.
Proof.
  unfold deliveries. induction vs as [|v l IHl]; simpl; [reflexivity|]. f_equal; try exact IHl.
Qed.

(** X5: values sent on a new channel before anybody subscribed are kept:
    a subscriber registered afterwards receives them, oldest first, at
    the next drain (the first four of them, the bound of a new channel). *)
Theorem late_subscriber_gets_queued_values parent_name name ty vs cb e :
  Forall (fun v => isinstance v ty = true) vs ->
  returns cb ->
  let '(r, s') :=
    history (map (@OpSend W) vs ++ [OpSubscribe cb; OpRunLoop W])%list
      (mkChanSt (ThreadChannel_init W parent_name name ty) e) in
  r = Ret tt
  /\ queue (self s') = skipn 4 vs
  /\ calls (env s') = (calls e ++ map (fun v => mkCall (cb_name cb) v) (firstn 4 vs))%list.
Proof.
  intros Hty Hcb. rewrite history_app, history_sends.
  pose proof (@sends_run W vs (ThreadChannel_init W parent_name name ty) e Hty) as Hs.
  destruct (sends vs _) as [r1 [c1 e1]]. simpl in Hs.
  destruct Hs as (-> & -> & Hc1 & Hw1).
  unfold history. simpl for_each. unfold bind at 1. simpl apply_op.
  unfold subscribe. unfold bind at 1. rewrite log_msg_run.
  unfold bind at 1. unfold gets at 1. unfold on_self, modify. simpl.
  unfold bind at 1.
  match goal with |- context [run_loop (mkChanSt ?c2 ?e2)] =>
    pose proof (@run_loop_run W c2 e2) as H end.
  simpl in H. specialize (H ltac:(repeat constructor; exact Hcb)).
  destruct (run_loop _) as [r2 [c2 e2]]. simpl in H.
  unfold taken in H. simpl in H.
  change (Z.to_nat (Z.max 1 (4 - 0))) with 4%nat in H.
  rewrite firstn_min, skipn_min in H.
  destruct H as (-> & -> & Hc2 & _ & _).
  unfold ret. simpl. rewrite Hc2, say_calls, Hc1.
  split; [reflexivity|]. split; [reflexivity|]. now rewrite deliveries_single.
Qed.

End Facts.

Lemma run_loop_returns_despite_exceptions_witness :
  let c := More.chan_raising_queued in
  let '(r, s') := run_loop (mkChanSt c env0) in
  r = Ret tt
  /\ puts (env s') = puts env0
  /\ exists k l,
       (k <= taken c 0 (queue c))%nat
       /\ self s' = set_queue (skipn k (queue c)) c
       /\ calls (env s') = (calls env0 ++ l)%list
       /\ Forall (fun cl => In (call_arg cl) (firstn k (queue c))) l.
Proof.
  intros c.
  apply (@run_loop_returns_despite_exceptions unit c env0).
  repeat constructor; intros d w ex H; simpl in H; [now injection H as <- | discriminate].
Defined.

(** A subscriber that calls [sys.exit()] ends the drain and [run_loop]
    raises [SystemExit]: the first value is lost, the second stays queued. *)
Example run_loop_of_quitting_subscriber :
  let '(r, s') := run_loop (mkChanSt More.chan_quitting_queued env0) in
  r = Raise More.system_exit
  /\ queue (self s') = [PyInt 2]
  /\ calls (env s') = [mkCall "quit" (PyInt 1)].
Proof. vm_compute. repeat split. Qed.

Lemma run_loop_raising_subscriber_loses_value_witness :
  let '(r, s') := run_loop (mkChanSt More.chan_raising_queued env0) in
  r = Ret tt
  /\ queue (self s') = [PyInt 2]
  /\ calls (env s')
     = (calls env0 ++ map (fun x : Callback unit => mkCall (cb_name x) (PyInt 1)) []
        ++ [mkCall (cb_name boom) (PyInt 1)])%list
  /\ puts (env s') = puts env0.
Proof.
  apply (@run_loop_raising_subscriber_loses_value unit More.chan_raising_queued env0
           (PyInt 1) [PyInt 2] [] boom [second] (mkExc "Exception" "boom")).
  - reflexivity.
  - reflexivity.
  - constructor.
  - intros w; reflexivity.
Defined.

Lemma drains_compose_witness :
  let m := Z.to_nat (max_entries_per_loop More.chan_two_queued) in
  let '(r, s') :=
    history (repeat (OpRunLoop unit) 2) (mkChanSt More.chan_two_queued env0) in
  r = Ret tt
  /\ queue (self s') = skipn (2 * m) (queue More.chan_two_queued)
  /\ calls (env s')
     = (calls env0
        ++ deliveries (callbacks More.chan_two_queued)
             (firstn (2 * m) (queue More.chan_two_queued)))%list
  /\ puts (env s') = puts env0.
Proof.
  apply (@drains_compose unit More.chan_two_queued env0 2).
  - repeat constructor.
  - vm_compute. discriminate.
Defined.

Lemma late_subscriber_gets_queued_values_witness :
  let vs := [PyInt 1; PyInt 2; PyInt 3; PyInt 4; PyInt 5] in
  let '(r, s') :=
    history (map (@OpSend unit) vs ++ [OpSubscribe first; OpRunLoop unit])%list
      (mkChanSt (ThreadChannel_init unit "worker" "progress" TInt) env0) in
  r = Ret tt
  /\ queue (self s') = skipn 4 vs
  /\ calls (env s') = (calls env0 ++ map (fun v => mkCall (cb_name first) v) (firstn 4 vs))%list.
Proof.
  intros vs.
  apply (@late_subscriber_gets_queued_values unit "worker" "progress" TInt vs first env0).
  - repeat constructor.
  - intros d w; reflexivity.
Defined.

End ChannelMore.

(* ===================================================================== *)
(** ** More facts about a worker *)
(* ===================================================================== *)

Module WorkerMore.
Import Worker Spec More ChannelFacts WorkerFacts.
Import ChannelMore.
Section Facts.
Variable W : Type.
Implicit Types (w : ThreadWorker W) (s : WorkerSt W) (a : Attr).

Lemma attr_get_set a c (cs : ThreadWorkerChannels W) : attr_get a (attr_set a c cs) = c.
Proof. destruct a; reflexivity. Qed.

Lemma attr_get_set_other a b c (cs : ThreadWorkerChannels W) :
  a <> b -> attr_get b (attr_set a c cs) = attr_get b cs.
Proof. destruct a, b; intros H; try reflexivity; contradiction. Qed.




(** One channel's drain, seen from the worker, when the subscribers of the
    channel raise nothing but [Exception]s. *)
Lemma on_channel_run_loop_any a s :
  Forall (@raises_exceptions_only W) (Channel.callbacks (attr_get a (channels (self s)))) ->
  let '(r, s') := on_channel a (@Channel.run_loop W) s in
  r = Ret tt
  /\ Channel.puts (env s') = Channel.puts (env s)
  /\ monitor_thread (self s') = monitor_thread (self s)
  /\ (forall b, Channel.callbacks (attr_get b (channels (self s')))
                = Channel.callbacks (attr_get b (channels (self s)))).
Proof.
  intros Hall. unfold on_channel, zoom.
  pose proof (@run_loop_any W (attr_get a (channels (self s))) (env s)) as H.
  destruct (Channel.run_loop _) as [r [c1 e1]]. simpl in H.
  destruct H as ([-> | (ex & _ & Hcls & Hby)] & Hp & k & l & _ & -> & _).
  - simpl. repeat split; auto. intros b. destruct a, b; reflexivity.
  - rewrite (raised_by_exception Hall Hby) in Hcls. discriminate.
Qed.

Lemma channels_run_loop_any s :
  (forall a, Forall (@raises_exceptions_only W)
               (Channel.callbacks (attr_get a (channels (self s))))) ->
  let '(r, s') := channels_run_loop s in
  r = Ret tt
  /\ Channel.puts (env s') = Channel.puts (env s)
  /\ monitor_thread (self s') = monitor_thread (self s)
  /\ (forall b, Channel.callbacks (attr_get b (channels (self s')))
                = Channel.callbacks (attr_get b (channels (self s)))).
Proof.
  intros Hall. unfold channels_run_loop.
  unfold bind at 1. pose proof (@on_channel_run_loop_any progress_ s (Hall _)) as H1.
  destruct (on_channel progress_ _ _) as [r1 s1]. destruct H1 as (-> & Hp1 & Hm1 & Hc1).
  assert (Hall1 : forall a, Forall (@raises_exceptions_only W)
                    (Channel.callbacks (attr_get a (channels (self s1)))))
    by (intros a; rewrite Hc1; apply Hall).
  unfold bind at 1. pose proof (@on_channel_run_loop_any status_ s1 (Hall1 _)) as H2.
  destruct (on_channel status_ _ _) as [r2 s2]. destruct H2 as (-> & Hp2 & Hm2 & Hc2).
  assert (Hall2 : forall a, Forall (@raises_exceptions_only W)
                    (Channel.callbacks (attr_get a (channels (self s2)))))
    by (intros a; rewrite Hc2; apply Hall1).
  unfold bind at 1. pose proof (@on_channel_run_loop_any error_ s2 (Hall2 _)) as H3.
  destruct (on_channel error_ _ _) as [r3 s3]. destruct H3 as (-> & Hp3 & Hm3 & Hc3).
  assert (Hall3 : forall a, Forall (@raises_exceptions_only W)
                    (Channel.callbacks (attr_get a (channels (self s3)))))
    by (intros a; rewrite Hc3; apply Hall2).
  unfold bind at 1. pose proof (@on_channel_run_loop_any success_ s3 (Hall3 _)) as H4.
  destruct (on_channel success_ _ _) as [r4 s4]. destruct H4 as (-> & Hp4 & Hm4 & Hc4).
  assert (Hall4 : forall a, Forall (@raises_exceptions_only W)
                    (Channel.callbacks (attr_get a (channels (self s4)))))
    by (intros a; rewrite Hc4; apply Hall3).
  pose proof (@on_channel_run_loop_any result_ s4 (Hall4 _)) as H5.
  destruct (on_channel result_ _ _) as [r5 s5]. destruct H5 as (-> & Hp5 & Hm5 & Hc5).
  split; [reflexivity|]. split; [congruence|]. split; [congruence|].
  intros b. now rewrite Hc5, Hc4, Hc3, Hc2, Hc1.
Qed.

(** X7: the polling loop of a worker is not ended by a subscriber that
    raises an [Exception]: when the subscribers of the five channels raise
    nothing but instances of [Exception] (what [except Exception] in
    [ThreadChannel.run_loop] catches), any number of rounds of
    [ThreadWorker.run_loop] returns without raising, and puts nothing. *)
Theorem monitor_loop_survives_exceptions n : forall s,
  (forall a, Forall (@raises_exceptions_only W)
               (Channel.callbacks (attr_get a (channels (self s))))) ->
  let '(r, s') := Worker.run_loop n s in
  r = Ret tt /\ Channel.puts (env s') = Channel.puts (env s).
Proof.
  induction n as [|n IH]; intros s Hall.
  - simpl. now split.
  - simpl Worker.run_loop. unfold bind at 1.
    pose proof (@channels_run_loop_any s Hall) as H.
    destruct (channels_run_loop s) as [r1 s1]. destruct H as (-> & Hp1 & _ & Hc1).
    unfold bind at 1. unfold gets at 1. unfold bind at 1. unfold sleep at 1, ret.
    assert (Hall1 : forall a, Forall (@raises_exceptions_only W)
                      (Channel.callbacks (attr_get a (channels (self s1)))))
      by (intros a; rewrite Hc1; apply Hall).
    specialize (IH s1 Hall1). destruct (Worker.run_loop n s1) as [r s'].
    destruct IH as (-> & Hp). split; [reflexivity | congruence].
Qed.

(** X8: [report_error] with a message that is not a [str] still returns
    and still puts status "Error" and success [False], but the message
    itself is dropped: the error queue is as it was. *)
Theorem report_error_drops_non_str s (message : PyVal) :
  wf (self s) ->
  isinstance message TStr = false ->
  let '(r, s') := report_error message s in
  r = Ret tt
  /\ Channel.puts (env s')
     = (Channel.puts (env s) ++ [ev status_ (PyStr "Error"); ev success_ (PyBool false)])%list
  /\ Channel.queue (error (channels (self s'))) = Channel.queue (error (channels (self s))).
Proof.
  intros Hwf Hi. unfold report_error, report_status, bind. rewrite !on_channel_send_run.
  split; [reflexivity|]. split.
  - rewrite emit_puts; [|auto using emit_wf|reflexivity].
    rewrite emit_puts_dropped; [|auto using emit_wf|exact Hi].
    rewrite emit_puts; [|exact Hwf|reflexivity]. now rewrite <- app_assoc.
  - destruct (Hwf error_) as (_ & Ht). simpl in Ht.
    unfold emit. simpl. unfold send_chan. rewrite Ht, Hi. reflexivity.
Qed.

Section KeepsThread.

Lemma keeps_thread_ret A (x : A) : keeps_thread (ret x : WM W A).
Proof. intros s; reflexivity. Qed.

Lemma keeps_thread_eval A (o : Outcome A) : keeps_thread (eval o : WM W A).
Proof. intros s; reflexivity. Qed.

Lemma keeps_thread_bind A B (m : WM W A) (k : A -> WM W B) :
  keeps_thread m -> (forall x, keeps_thread (k x)) -> keeps_thread (bind m k).
Proof.
  intros Hm Hk s. unfold bind. specialize (Hm s).
  destruct (m s) as [[x|ex] s1]; simpl in *; [|exact Hm].
  rewrite (Hk x s1). exact Hm.
Qed.

Lemma keeps_thread_send a data : keeps_thread (on_channel a (Channel.send data) : WM W unit).
Proof. intros s. rewrite on_channel_send_run. reflexivity. Qed.

End KeepsThread.

Variable thread_stop : Outcome unit.

(** After [run], the polling thread has been started, whatever the task
    did, provided the task leaves the thread alone. *)
Lemma run_leaves_thread_started (ta : ThreadAction W) s :
  monitor_thread (self s) = ThreadInitial ->
  keeps_thread (@thread_action W ta) ->
  monitor_thread (self (snd (run thread_stop (H := ta) s))) = ThreadStarted.
Proof.
  intros Hmt Hk. rewrite run_run by assumption.
  specialize (Hk (started s)).
  destruct (@thread_action W ta (started s)) as [[[]|ex] s2]; simpl in Hk;
    try destruct (exc_is_exception ex);
    destruct thread_stop as [[]|ex']; simpl; rewrite ?logged_self; exact Hk.
Qed.

(** X9: [run] on a worker whose polling thread was already started raises
    [RuntimeError] from [monitor_thread.start()]: status "Starting" has
    been put, progress 0 has not, and the task is not entered (the state
    left does not depend on it). *)
Theorem run_on_started_worker_raises (ta : ThreadAction W) s :
  wf (self s) ->
  monitor_thread (self s) = ThreadStarted ->
  let '(r, s') := run thread_stop (H := ta) s in
  r = Raise (mkExc "RuntimeError" "threads can only be started once")
  /\ s' = emit status_ (PyStr "Starting") (logged "Starting" s)
  /\ Channel.puts (env s') = (Channel.puts (env s) ++ [ev status_ (PyStr "Starting")])%list.
Proof.
  intros Hwf Hmt. unfold run.
  unfold bind at 1. rewrite worker_log_msg_run.
  unfold bind at 1. unfold report_status. rewrite on_channel_send_run.
  unfold bind at 1. unfold monitor_thread_start at 1. unfold bind at 1. unfold gets at 1.
  cbn [self emit].
  replace (monitor_thread (set_channels _ (self (logged "Starting" s)))) with ThreadStarted
    by (rewrite logged_self; destruct (self s); simpl in *; congruence).
  unfold raise. split; [reflexivity|]. split; [reflexivity|].
  fold (emit status_ (PyStr "Starting") (logged "Starting" s)).
  rewrite emit_puts; [|now apply logged_wf|reflexivity]. now rewrite logged_puts.
Qed.

End Facts.


(** The progress value reported first is the only one a subscriber sees in
    that round: the other channels have no subscriber. *)
Example tick_of_reporting_worker :
  Channel.calls (env (snd (channels_run_loop More.reporting_worker)))
  = [mkCall "first" (PyInt 7); mkCall "second" (PyInt 7)].
Proof. vm_compute. reflexivity. Qed.

Lemma monitor_loop_survives_exceptions_witness :
  let '(r, s') := Worker.run_loop 3 More.worker_with_raising_subscriber in
  r = Ret tt
  /\ Channel.puts (env s') = Channel.puts (env More.worker_with_raising_subscriber).
Proof.
  apply (@monitor_loop_survives_exceptions unit 3 More.worker_with_raising_subscriber).
  intros a; destruct a; repeat constructor.
  intros d w ex H. simpl in H. now injection H as <-.
Defined.

(** In those rounds the subscriber was called once, with the value
    reported, and the exception it raised went no further. *)
Example rounds_of_worker_with_raising_subscriber :
  Channel.calls (env (snd (Worker.run_loop 3 More.worker_with_raising_subscriber)))
  = [mkCall "boom" (PyInt 7)].
Proof. vm_compute. reflexivity. Qed.

Lemma report_error_drops_non_str_witness :
  let '(r, s') := report_error (PyInt 404) sample_worker in
  r = Ret tt
  /\ Channel.puts (env s')
     = (Channel.puts (env sample_worker)
        ++ [ev status_ (PyStr "Error"); ev success_ (PyBool false)])%list
  /\ Channel.queue (error (channels (self s')))
     = Channel.queue (error (channels (self sample_worker))).
Proof.
  apply (@report_error_drops_non_str unit sample_worker (PyInt 404)).
  - intros a; destruct a; split; reflexivity.
  - reflexivity.
Defined.

Lemma run_on_started_worker_raises_witness :
  let ta := TicketCreator.TicketCreator_action unit sample_repr sample_items in
  let '(r, s') := run (Ret tt) (H := ta) (started sample_worker) in
  r = Raise (mkExc "RuntimeError" "threads can only be started once")
  /\ s' = emit status_ (PyStr "Starting") (logged "Starting" (started sample_worker))
  /\ Channel.puts (env s')
     = (Channel.puts (env (started sample_worker)) ++ [ev status_ (PyStr "Starting")])%list.
Proof.
  intros ta.
  apply (@run_on_started_worker_raises unit (Ret tt) ta (started sample_worker)).
  - intros a; destruct a; split; reflexivity.
  - reflexivity.
Defined.

End WorkerMore.

(* ===================================================================== *)
(** ** More facts about the ticket task *)
(* ===================================================================== *)

Module TicketMore.
Import Worker Spec More ChannelFacts WorkerFacts TicketFacts WorkerMore.
Section Facts.
Variable W : Type.
Variable repr_dict : list (string * PyVal) -> string.
Variable thread_stop : Outcome unit.

Lemma for_items_keeps_thread items : forall num_selected count num_created,
  keeps_thread (TicketCreator.for_items repr_dict items num_selected count num_created
                : WM W Z).
Proof.
  induction items as [|item rest IH]; intros k count created; simpl.
  - apply keeps_thread_ret.
  - repeat first
      [ apply keeps_thread_eval | apply keeps_thread_ret
      | apply keeps_thread_send | apply IH
      | apply keeps_thread_bind; [|intros ?] ].
Qed.

Lemma thread_action_keeps_thread items :
  keeps_thread (TicketCreator.thread_action repr_dict items : WM W unit).
Proof.
  unfold TicketCreator.thread_action. destruct (len items =? 0).
  - apply keeps_thread_send.
  - repeat first
      [ apply keeps_thread_send | apply for_items_keeps_thread
      | apply keeps_thread_bind; [|intros ?] ].
Qed.

(** X10: a ticket worker cannot be run twice: whatever the items, a second
    [run] of the worker a first [run] has left raises [RuntimeError], and
    puts nothing but a second status "Starting". *)
Theorem second_run_raises items (e : Channel.Env W) :
  let ta := TicketCreator.TicketCreator_action W repr_dict items in
  let '(_, s1) := TicketCreator.run repr_dict thread_stop items e in
  let '(r2, s2) := run thread_stop (H := ta) s1 in
  r2 = Raise (mkExc "RuntimeError" "threads can only be started once")
  /\ Channel.puts (env s2) = (Channel.puts (env s1) ++ [ev status_ (PyStr "Starting")])%list.
Proof.
  intros ta. unfold TicketCreator.run. fold ta.
  set (s0 := mkWorkerSt (TicketCreator.TicketCreator_init W items) e).
  assert (Hwf0 : wf (self s0)) by apply ThreadWorker_init_wf.
  assert (Hmt : monitor_thread (self (snd (run thread_stop (H := ta) s0))) = ThreadStarted).
  { apply run_leaves_thread_started; [reflexivity|]. apply thread_action_keeps_thread. }
  assert (Hwf : wf (self (snd (run thread_stop (H := ta) s0)))).
  { apply (@emits_only_run W (fun _ => True) thread_stop ta); auto.
    apply thread_action_emits_only; auto. }
  destruct (run thread_stop s0) as [r1 s1]. simpl in Hmt, Hwf.
  pose proof (@run_on_started_worker_raises W thread_stop ta s1 Hwf Hmt) as H.
  destruct (run thread_stop s1) as [r2 s2].
  destruct H as (Hr & _ & Hp). now split.
Qed.

(** What a subscription [v[key]] raises is a [KeyError] or a [TypeError],
    both instances of [Exception]. *)
Lemma getitem_raises_exception v key ex :
  getitem v key = Raise ex -> exc_is_exception ex = true.
Proof.
  destruct v as [| | | |entries]; simpl; try (intros H; now injection H as <-).
  destruct (dict_get entries key); [discriminate|]. intros H. now injection H as <-.
Qed.

(** The loop over the items up to one whose ['id'] lookup raises. *)
Lemma for_items_raise num_selected good bad rest ex :
  forall ids ps count num_created (s : WorkerSt W),
  Forall2 has_id good ids ->
  getitem bad "id" = Raise ex ->
  map Ret ps = percents num_selected count (List.length good) ->
  wf (self s) ->
  exists s',
    TicketCreator.for_items repr_dict (good ++ bad :: rest)%list num_selected count num_created s
    = (Raise ex, s')
    /\ Channel.puts (env s')
       = (Channel.puts (env s) ++ flat_map (item_events repr_dict) (combine ids ps))%list.
Proof.
  induction good as [|item good IH]; intros ids ps count created s Hids Hbad Hps Hwf.
  - inversion Hids; subst. exists s. simpl.
    unfold bind at 1. unfold eval at 1. rewrite Hbad. now rewrite app_nil_r.
  - inversion Hids as [|? id ? ids' Hid Hids']; subst.
    destruct ps as [|p ps']; [discriminate|]. simpl in Hps.
    injection Hps as Hp Hps'.
    simpl app. simpl TicketCreator.for_items.
    unfold bind at 1. unfold eval at 1. unfold has_id in Hid. rewrite Hid.
    unfold bind at 1. unfold eval at 1. rewrite <- Hp.
    unfold bind at 1. unfold report_status. rewrite on_channel_send_run.
    unfold bind at 1. unfold sleep at 1, ret.
    unfold bind at 1. unfold report_progress. rewrite on_channel_send_run.
    match goal with |- context [TicketCreator.for_items _ _ _ _ _ ?s1] =>
      destruct (IH ids' ps' (count + 1) (created + 1) s1 Hids' Hbad Hps') as (s' & Hrun & Hputs)
    end.
    { auto using emit_wf. }
    exists s'. rewrite Hrun. split; [reflexivity|].
    rewrite Hputs. rewrite !emit_puts; auto using emit_wf.
    simpl. now rewrite <- !app_assoc.
Qed.

(** X11: when the lookup of ['id'] raises for an item (a dict without the
    key, or a value that is no dict), the run stops at that item: the
    events are status "Starting", progress 0, the announcement for the
    whole list, progress 5 and the status and progress of the items before
    it; no progress 100, no summary and no result follow; [run] prints the
    exception and ends as the cleanup call does. *)
Theorem run_stops_at_item_without_id good bad rest ids ex (e : Channel.Env W) :
  Forall2 has_id good ids ->
  getitem bad "id" = Raise ex ->
  let items := (good ++ bad :: rest)%list in
  exists ps,
    map Ret ps = percents (len items) 0 (List.length good)
    /\ let '(r, s') := TicketCreator.run repr_dict thread_stop items e in
       r = thread_stop
       /\ Channel.puts (env s')
          = (Channel.puts e
             ++ [ev status_ (PyStr "Starting");
                 ev progress_ (PyInt 0);
                 ev status_ (PyStr ("Creating tickets for " ++ str_of_int (len items)
                                      ++ " selected contracts"));
                 ev progress_ (PyInt 5)]
             ++ flat_map (item_events repr_dict) (combine ids ps))%list
       /\ In ("Error while running threadworker: " ++ exc_str ex)
             (Channel.console (env s')).
Proof.
  intros Hids Hbad. cbv zeta.
  assert (Hlen : 0 + Z.of_nat (List.length good) <= len (good ++ bad :: rest)%list).
  { unfold len. rewrite length_app. simpl. lia. }
  assert (Hk : (len (good ++ bad :: rest)%list =? 0) = false).
  { apply Z.eqb_neq. unfold len. rewrite length_app. simpl. lia. }
  remember (len (good ++ bad :: rest)%list) as k eqn:Ek.
  assert (H00 : 0 <= 0) by lia.
  destruct (@percents_returns k (List.length good) 0 H00 Hlen) as (ps & Hps).
  exists ps. split; [exact Hps|].
  set (s0 := mkWorkerSt (TicketCreator.TicketCreator_init W (good ++ bad :: rest)%list) e).
  assert (Hwf0 : wf (self s0)) by apply ThreadWorker_init_wf.
  pose proof (@started_wf W s0 Hwf0) as Hwf1.
  pose proof (@started_puts W s0 Hwf0) as Hp1.
  unfold TicketCreator.run. fold s0. rewrite run_run by reflexivity.
  cbn [thread_action TicketCreator.TicketCreator_action].
  unfold TicketCreator.thread_action. rewrite <- Ek. rewrite Hk.
  unfold bind at 1. unfold report_status. rewrite on_channel_send_run.
  unfold bind at 1. unfold report_progress. rewrite on_channel_send_run.
  unfold bind at 1.
  match goal with |- context [TicketCreator.for_items _ _ _ _ _ ?s1] =>
    destruct (@for_items_raise k good bad rest ex ids ps 0 0 s1 Hids Hbad Hps)
      as (s2 & Hrun & Hp2)
  end.
  { auto using emit_wf. }
  rewrite Hrun. rewrite (getitem_raises_exception _ _ Hbad). cbv zeta.
  assert (Hputs : Channel.puts (env s2)
    = (Channel.puts e
       ++ [ev status_ (PyStr "Starting"); ev progress_ (PyInt 0);
           ev status_ (PyStr ("Creating tickets for " ++ str_of_int k
                                ++ " selected contracts"));
           ev progress_ (PyInt 5)]
       ++ flat_map (item_events repr_dict) (combine ids ps))%list).
  { rewrite Hp2. rewrite !emit_puts; auto using emit_wf.
    rewrite Hp1. simpl. rewrite <- !app_assoc. reflexivity. }
  assert (Hin : forall m1 line (t : WorkerSt W),
             In line (Channel.console (env t)) ->
             In line (Channel.console (env (logged m1 t)))).
  { intros m1 line t Ht. unfold logged. destruct (debug (self t)); [|exact Ht].
    simpl. apply in_or_app. now left. }
  destruct thread_stop as [[]|ex0]; (split; [reflexivity|]);
    rewrite ?logged_puts; (split; [exact Hputs|]).
  - apply Hin, Hin. simpl. apply in_or_app. right. now left.
  - apply Hin. simpl. apply in_or_app. right. now left.
Qed.

End Facts.

(** X12: for every number of items [k >= 1], the progress computed for the
    last item, [round((k / k) * 100)], is exactly 100: the float quotient
    is 1.0 and the product 100.0, with no rounding error. *)
Theorem last_item_progress_is_100 (k : Z) :
  1 <= k -> TicketCreator.percent (k - 1) k = Ret 100.
Proof.
  intros Hk. unfold TicketCreator.percent, int_truediv.
  replace (k - 1 + 1) with k by lia.
  destruct (Z.eqb_spec k 0); [lia|].
  rewrite Z.abs_eq by lia.
  unfold SFdiv_core_binary.
  replace (Zdigits2 k + 0 - (Zdigits2 k + 0)) with 0 by lia.
  change (Z.min (fexp prec emax 0) (0 - 0)) with (-53).
  change (0 - 0 - -53) with 53.
  cbv iota beta.
  assert (Hdiv : Z.div_eucl (Z.shiftl k 53) k = (2 ^ 53, 0)).
  { rewrite Z.shiftl_mul_pow2 by lia.
    pose proof (Z.div_mul (2 ^ 53) k ltac:(lia)) as Hq.
    pose proof (Z.mod_mul (2 ^ 53) k ltac:(lia)) as Hm.
    rewrite (Z.mul_comm k). unfold Z.div in Hq. unfold Z.modulo in Hm.
    destruct (Z.div_eucl (2 ^ 53 * k) k) as [q r]. simpl in Hq, Hm. now subst. }
  rewrite Hdiv.
  replace (k <? 0) with false by (symmetry; apply Z.ltb_ge; lia).
  assert (Hloc : new_location k 0 = loc_Exact).
  { unfold new_location. destruct (Z.even k); reflexivity. }
  rewrite Hloc. vm_compute. reflexivity.
Qed.

Lemma run_stops_at_item_without_id_witness :
  let items := ([PyDict [("id", PyStr "42")]] ++ item_without_id :: [])%list in
  exists ps,
    map Ret ps = percents (len items) 0 (List.length [PyDict [("id", PyStr "42")]])
    /\ let '(r, s') := TicketCreator.run sample_repr (Ret tt) items env0 in
       r = Ret tt
       /\ Channel.puts (env s')
          = (Channel.puts env0
             ++ [ev status_ (PyStr "Starting");
                 ev progress_ (PyInt 0);
                 ev status_ (PyStr ("Creating tickets for " ++ str_of_int (len items)
                                      ++ " selected contracts"));
                 ev progress_ (PyInt 5)]
             ++ flat_map (item_events sample_repr) (combine [PyStr "42"] ps))%list
       /\ In ("Error while running threadworker: " ++ exc_str (mkExc "KeyError" "'id'"))
             (Channel.console (env s')).
Proof.
  apply (@run_stops_at_item_without_id unit sample_repr (Ret tt)
           [PyDict [("id", PyStr "42")]] item_without_id [] [PyStr "42"]
           (mkExc "KeyError" "'id'") env0).
  - repeat constructor.
  - reflexivity.
Defined.

(** With two items of which the second has no identifier, the only
    per-item progress is 50. *)
Example run_two_items_second_without_id :
  progress_values
    (Channel.puts (env (snd (TicketCreator.run sample_repr (Ret tt)
                               [PyDict [("id", PyStr "42")]; item_without_id] env0))))
  = [PyInt 0; PyInt 5; PyInt 50].
Proof. vm_compute. reflexivity. Qed.

Lemma last_item_progress_is_100_witness : TicketCreator.percent (7 - 1) 7 = Ret 100.
Proof. apply (@last_item_progress_is_100 7). lia. Defined.

End TicketMore.

(* ===================================================================== *)
(** ** More facts about the communicator *)
(* ===================================================================== *)

Module CommunicatorMore.
Import Worker Spec Communicator.

(** X14: a communicator set up on a new worker shows a reported error, at
    the next round of the channels, as three messages to the message
    function, in this order: the status "Error", the error text and
    "Failed!"; the status label, when there is one, is set to "Error"
    after the first message; the progress bar is not touched. *)
Theorem reported_error_reaches_the_log repr_dict (c : ThreadWorkerCommunicator)
    (text worker_name : string) :
  let s0 := mkWorkerSt (ThreadWorker_init UI worker_name) (Channel.mkEnv [] [] [] []) in
  let '(_, s1) := setup repr_dict c s0 in
  let '(_, s2) := report_error (PyStr text) s1 in
  let '(r, s3) := channels_run_loop s2 in
  r = Ret tt
  /\ Channel.world (env s3)
     = ([Message "Setting up";
         Message ("ThreadWorker " ++ name c ++ " - Status: Error")%string]
        ++ match statuslabel c with
           | Some label => [SetItem label "text" (PyStr "Error"); UpdateIdletasks]
           | None => []
           end
        ++ [Message ("ThreadWorker " ++ name c ++ " - Error: " ++ text)%string;
            Message ("ThreadWorker " ++ name c ++ " - Failed!")%string])%list
  /\ Channel.calls (env s3)
     = [mkCall "on_status" (PyStr "Error"); mkCall "on_error" (PyStr text);
        mkCall "on_success" (PyBool false)].
Proof.
  destruct c as [nm pb [label|] dbg]; vm_compute; repeat split; reflexivity.
Qed.

(** X15: whatever value the worker reports as its result, the communicator
    hands that same value to the result function at the next round of the
    channels, once, and does nothing else: no message, no widget. *)
Theorem reported_result_reaches_the_handler repr_dict (c : ThreadWorkerCommunicator)
    (result : PyVal) (worker_name : string) :
  let s0 := mkWorkerSt (ThreadWorker_init UI worker_name) (Channel.mkEnv [] [] [] []) in
  let '(_, s1) := setup repr_dict c s0 in
  let '(_, s2) := report_result result s1 in
  let '(r, s3) := channels_run_loop s2 in
  r = Ret tt
  /\ Channel.world (env s3) = [Message "Setting up"; Result result]
  /\ Channel.calls (env s3) = [mkCall "on_result" result].
Proof.
  vm_compute; repeat split; reflexivity.
Qed.

(** X16: with a progress bar, a reported integer progress sets the item
    ['value'] of the bar to that integer and asks the window to refresh;
    no message is sent for a progress event. *)
Theorem reported_progress_reaches_the_bar repr_dict (c : ThreadWorkerCommunicator)
    (bar : string) (p : Z) (worker_name : string) :
  progressbar c = Some bar ->
  let s0 := mkWorkerSt (ThreadWorker_init UI worker_name) (Channel.mkEnv [] [] [] []) in
  let '(_, s1) := setup repr_dict c s0 in
  let '(_, s2) := report_progress (PyInt p) s1 in
  let '(r, s3) := channels_run_loop s2 in
  r = Ret tt
  /\ Channel.world (env s3)
     = [Message "Setting up"; SetItem bar "value" (PyInt p); UpdateIdletasks]
  /\ Channel.calls (env s3) = [mkCall "on_progress" (PyInt p)].
Proof.
  intros Hbar. destruct c as [nm pb sl dbg]. simpl in Hbar. subst pb.
  vm_compute; repeat split; reflexivity.
Qed.

(** X17: a reported success is shown as two messages, the status "Success"
    and "Success!", with the status label, when there is one, set to
    "Success" in between; the result function is not called. *)
Theorem reported_success_reaches_the_log repr_dict (c : ThreadWorkerCommunicator)
    (worker_name : string) :
  let s0 := mkWorkerSt (ThreadWorker_init UI worker_name) (Channel.mkEnv [] [] [] []) in
  let '(_, s1) := setup repr_dict c s0 in
  let '(_, s2) := report_success s1 in
  let '(r, s3) := channels_run_loop s2 in
  r = Ret tt
  /\ Channel.world (env s3)
     = ([Message "Setting up";
         Message ("ThreadWorker " ++ name c ++ " - Status: Success")%string]
        ++ match statuslabel c with
           | Some label => [SetItem label "text" (PyStr "Success"); UpdateIdletasks]
           | None => []
           end
        ++ [Message ("ThreadWorker " ++ name c ++ " - Success!")%string])%list
  /\ Channel.calls (env s3)
     = [mkCall "on_status" (PyStr "Success"); mkCall "on_success" (PyBool true)].
Proof.
  destruct c as [nm pb [label|] dbg]; vm_compute; repeat split; reflexivity.
Qed.

Lemma reported_progress_reaches_the_bar_witness :
  let s0 := mkWorkerSt (ThreadWorker_init UI "TicketCreator") (Channel.mkEnv [] [] [] []) in
  let '(_, s1) := setup sample_repr More.full_communicator s0 in
  let '(_, s2) := report_progress (PyInt 33) s1 in
  let '(r, s3) := channels_run_loop s2 in
  r = Ret tt
  /\ Channel.world (env s3)
     = [Message "Setting up"; SetItem "progressbar_create_tickets" "value" (PyInt 33);
        UpdateIdletasks]
  /\ Channel.calls (env s3) = [mkCall "on_progress" (PyInt 33)].
Proof.
  apply (@reported_progress_reaches_the_bar sample_repr More.full_communicator
           "progressbar_create_tickets" 33 "TicketCreator").
  reflexivity.
Defined.

End CommunicatorMore.

(* ===================================================================== *)
(** ** Facts about the log of the main window *)
(* ===================================================================== *)

Module MainWindowFacts.
Import MainWindow.
Section Facts.
Variable repr_dict : list (string * PyVal) -> string.
Variable get_timestamp : nat -> string.

Lemma insert_rows_run entries : forall (w : MainWindow),
  insert_rows (List.length (table_log w)) entries w
  = (Ret tt, mkMainWindow (log w) (table_log w ++ entries)%list (console w) (clock w)).
Proof.
  induction entries as [|x rest IH]; intros w.
  - simpl. rewrite app_nil_r. destruct w; reflexivity.
  - simpl insert_rows. unfold bind, modify.
    set (w1 := mkMainWindow (log w) (table_insert (List.length (table_log w)) x (table_log w))
                 (console w) (clock w)).
    assert (Ht : table_log w1 = (table_log w ++ [x])%list).
    { unfold w1, table_insert. simpl. now rewrite firstn_all, skipn_all. }
    assert (Hl : S (List.length (table_log w)) = List.length (table_log w1)).
    { rewrite Ht, length_app. simpl. lia. }
    rewrite Hl, IH, Ht, <- app_assoc. reflexivity.
Qed.

(** X18: [MainWindow.log_msg] appends one entry, stamped with the time of
    the call, to the log, prints it, and rebuilds the table from nothing:
    whatever the table showed before, it then shows the whole log, newest
    entry first. *)
Theorem log_msg_table_mirrors_log (message : PyVal) (w : MainWindow) :
  let '(r, w') := log_msg repr_dict get_timestamp message w in
  r = Ret tt
  /\ log w' = (log w ++ [(get_timestamp (clock w), message)])%list
  /\ table_log w' = rev (log w')
  /\ console w'
     = (console w ++ [(get_timestamp (clock w) ++ " - " ++ Py.str repr_dict message)%string])%list
  /\ clock w' = S (clock w).
Proof.
  unfold log_msg, bind, modify, gets. simpl.
  match goal with |- context [insert_rows 0 ?l ?w0] =>
    pose proof (@insert_rows_run l w0) as H end.
  simpl in H. rewrite H. simpl. now repeat split.
Qed.

(** X19: after [MainWindow.clear_log] the log and the table hold exactly
    one entry, "Log cleared"; the console keeps what was printed and gets
    that line too. *)
Theorem clear_log_leaves_one_entry (w : MainWindow) :
  let '(r, w') := clear_log repr_dict get_timestamp w in
  r = Ret tt
  /\ log w' = [(get_timestamp (clock w), PyStr "Log cleared")]
  /\ table_log w' = [(get_timestamp (clock w), PyStr "Log cleared")]
  /\ console w' = (console w ++ [(get_timestamp (clock w) ++ " - Log cleared")%string])%list.
Proof.
  unfold clear_log. unfold bind at 1. unfold modify at 1.
  match goal with |- context [log_msg _ _ ?m ?w0] =>
    pose proof (@log_msg_table_mirrors_log m w0) as H end.
  destruct (log_msg _ _ _ _) as [r w']. simpl in H.
  destruct H as (-> & Hl & Ht & Hc & _). rewrite Ht, Hl, Hc. now repeat split.
Qed.

End Facts.
End MainWindowFacts.
